(** * RamOptimise: the idle-tab archiver

    A shallow embedding of [tab_archiver_working.py] (and of the copy of
    [safe_filename] in [Debug_tag.py]).

    - A Python [str] is a list of Unicode code points ([list N]).
    - A Python [int] is a [Z]; a [datetime] is the number of microseconds
      since [CHROME_EPOCH], so [chrome_ts] is the identity and a
      [timedelta] of [d] days is [d * 86400000000].
    - The browser, the history database and the renderer are external
      services: their answers are fields of an [Env] record.
    - The output tree, the index file, the close requests sent and the
      render attempts made are the fields of a [World] that the pipeline
      threads through its steps. *)

From stdpp Require Import gmap list strings.
From Stdlib Require Import ZArith NArith Ascii DecimalString DecimalNat.

Abbreviation str := (list N).

(** Code points of an ASCII literal. *)
Definition codes (s : string) : str :=
  map N_of_ascii (String.list_ascii_of_string s).

Definition str_eqb (a b : str) : bool := bool_decide (a = b).

(** ** Character classes of Python's [re] on [str] patterns *)

Module Chars.

Definition space : N := 32.
Definition underscore : N := 95.
Definition dot : N := 46.
Definition hyphen : N := 45.

(** The nine characters of the class in the first substitution:
    less-than, greater-than, colon, double quote, slash, backslash,
    bar, question mark and star. *)
Definition reserved : str := [60; 62; 58; 34; 47; 92; 124; 63; 42]%N.

Definition is_reserved (c : N) : bool := existsb (N.eqb c) reserved.

Definition in_range (lo hi c : N) : bool := ((lo <=? c) && (c <=? hi))%N.

(** [\s] and [str.strip()]: the code points CPython classifies as
    white space. *)
Definition is_space (c : N) : bool :=
  in_range 9 13 c || in_range 28 32 c || (c =? 133)%N || (c =? 160)%N
  || (c =? 5760)%N || in_range 8192 8202 c || (c =? 8232)%N
  || (c =? 8233)%N || (c =? 8239)%N || (c =? 8287)%N || (c =? 12288)%N.

Definition ascii_alnum (c : N) : bool :=
  in_range 48 57 c || in_range 65 90 c || in_range 97 122 c.

End Chars.

Import Chars.

(** ** Tabs, configuration, the outside world *)

(** A tab is the JSON object the debugging endpoint lists; a key the
    object lacks is [None], which is what [tab.get(key)] returns. *)
Record Tab := {
  tab_id : option str;
  tab_url : option str;
  tab_title : option str;
  tab_type : option str
}.

(** The fields of [Config] the pipeline reads. *)
Record Config := {
  days_idle : Z;
  pdf_root : str;
  max_filename_length : Z;
  max_retries : Z;
  dry_run : bool
}.

(** [Config.__init__], for a given output root. *)
Definition default_config (root : str) : Config :=
  {| days_idle := 0; pdf_root := root; max_filename_length := 80;
     max_retries := 3; dry_run := false |}.

(** What one pass through the body of the [try] of lines 223-260 does:
    it writes the PDF and closes the browser, or it writes the PDF and
    then fails, or it fails before any PDF is written. *)
Inductive attempt_result := Rendered | PdfThenError | NoPdf.

(** The answers of the services the run talks to. *)
Record Env := {
  history_exists : bool;
  now : Z;
  day_name : str;
  open_tabs : option (list Tab);
  copy_history : bool;
  last_visit_time : str -> option Z;
  render : nat -> Tab -> str -> attempt_result;
  st_size : str -> Z;
  netloc : str -> str
}.

(** A row of the index: the arguments [store_locally] formats. *)
Record ArchiveRecord := {
  logged_at : Z;
  row_title : str;
  row_url : str;
  row_domain : str;
  row_size : Z;
  row_pdf : str
}.

(** The state a run can change.  [files] holds the paths that exist
    under the output root, [index_file] the rows of [index.html] below
    its header ([None]: no such file), [close_requests] the tab ids
    POSTed to the endpoint, [attempts] the render attempts made (tab
    and target path, latest first), [sleeps] the one-second pauses
    taken, [tmp_history] whether the temporary copy of the history
    database exists. *)
Record World := {
  files : gset str;
  index_file : option (list ArchiveRecord);
  close_requests : list str;
  attempts : list (Tab * str);
  sleeps : nat;
  tmp_history : bool
}.

Definition with_files (f : gset str -> gset str) (w : World) : World :=
  {| files := f (files w); index_file := index_file w;
     close_requests := close_requests w; attempts := attempts w;
     sleeps := sleeps w; tmp_history := tmp_history w |}.

Definition with_index (ix : option (list ArchiveRecord)) (w : World) : World :=
  {| files := files w; index_file := ix;
     close_requests := close_requests w; attempts := attempts w;
     sleeps := sleeps w; tmp_history := tmp_history w |}.

Definition post_close (id : str) (w : World) : World :=
  {| files := files w; index_file := index_file w;
     close_requests := id :: close_requests w; attempts := attempts w;
     sleeps := sleeps w; tmp_history := tmp_history w |}.

Definition log_attempt (tab : Tab) (pdf_path : str) (w : World) : World :=
  {| files := files w; index_file := index_file w;
     close_requests := close_requests w;
     attempts := (tab, pdf_path) :: attempts w;
     sleeps := sleeps w; tmp_history := tmp_history w |}.

Definition sleep_1s (w : World) : World :=
  {| files := files w; index_file := index_file w;
     close_requests := close_requests w; attempts := attempts w;
     sleeps := S (sleeps w); tmp_history := tmp_history w |}.

Definition with_tmp_history (b : bool) (w : World) : World :=
  {| files := files w; index_file := index_file w;
     close_requests := close_requests w; attempts := attempts w;
     sleeps := sleeps w; tmp_history := b |}.

(** A call returns a value or raises an exception. *)
Inductive outcome (A : Type) := Returned (a : A) | Raised.
Arguments Returned {A} a.
Arguments Raised {A}.

(** The reasons the loop of [process_tabs] has to pass a tab over, and
    the one verdict that sends it to the archival steps. *)
Inductive verdict := SkipUrl | SkipNoHistory | SkipRecent | Selected.

Definition page : str := Eval cbv in codes "page".

(** The fallback of [safe_filename] and the default title of line 304. *)
Definition untitled : str := Eval cbv in codes "untitled".

Definition internal_prefixes : list str :=
  Eval cbv in
    [codes "chrome://"; codes "chrome-extension://"; codes "edge://";
     codes "about:"].

(** [s.startswith(prefix)] *)
Fixpoint startswith (prefix s : str) : bool :=
  match prefix, s with
  | [], _ => true
  | _ :: _, [] => false
  | a :: prefix', b :: s' => (a =? b)%N && startswith prefix' s'
  end.

(** [tab.get('url', '')] and [tab.get('title', 'untitled')], lines
    303-304. *)
Definition url_of (tab : Tab) : str := default [] (tab_url tab).
Definition title_of (tab : Tab) : str := default untitled (tab_title tab).

(** The rows of the index, none when there is no index. *)
Definition rows (w : World) : list ArchiveRecord := default [] (index_file w).

Definition is_selected (v : verdict) : bool :=
  match v with
  | Selected => true
  | _ => false
  end.

(** The same environment with another answer to the tab-list request. *)
Definition with_open_tabs (tabs : option (list Tab)) (env : Env) : Env :=
  {| history_exists := history_exists env; now := now env;
     day_name := day_name env; open_tabs := tabs;
     copy_history := copy_history env;
     last_visit_time := last_visit_time env; render := render env;
     st_size := st_size env; netloc := netloc env |}.

(** Two worlds that differ at most in the temporary copy of the history
    database. *)
Definition same_output (w1 w2 : World) : Prop :=
  files w1 = files w2 /\ index_file w1 = index_file w2
  /\ close_requests w1 = close_requests w2 /\ attempts w1 = attempts w2
  /\ sleeps w1 = sleeps w2.

(** ** Paths *)

Definition slash : str := [47%N].
Definition dot_pdf : str := Eval cbv in codes ".pdf".

(** [dir / name] *)
Definition join (dir name : str) : str := dir ++ slash ++ name.

(** [str(counter)] *)
Definition decimal (counter : nat) : str :=
  codes (NilEmpty.string_of_uint (Nat.to_uint counter)).

(** [day_dir / f'{stem}_{counter}.pdf'] *)
Definition numbered (day_dir stem : str) (counter : nat) : str :=
  join day_dir (stem ++ [underscore] ++ decimal counter ++ dot_pdf).

(** The [while pdf_path.exists()] of lines 325-328, entered with a
    path that exists.  [fuel] bounds the number of paths tried. *)
Fixpoint next_free (fs : gset str) (day_dir stem : str)
    (fuel counter : nat) : option str :=
  match fuel with
  | O => None
  | S fuel' =>
      let pdf_path := numbered day_dir stem counter in
      if decide (pdf_path ∈ fs) then next_free fs day_dir stem fuel' (S counter)
      else Some pdf_path
  end.

(** ** File sizes *)

(** The number [format_file_size] divides: [numerator / 1024 ^ divisions].
    The loop of lines 94-96 divides a float by 1024.0; the division is
    exact, and so is the conversion of the integer size to a float when
    the size is below 2 ^ 53, so the fraction is the float. *)
Record scaled_size := {
  numerator : Z;
  divisions : nat
}.

(** [size_bytes >= 1024] *)
Definition at_least_1024 (v : scaled_size) : bool :=
  (1024 * 1024 ^ Z.of_nat (divisions v) <=? numerator v)%Z.

(** [size_bytes /= 1024.0] *)
Definition divide_by_1024 (v : scaled_size) : scaled_size :=
  {| numerator := numerator v; divisions := S (divisions v) |}.

Definition size_names : list str :=
  Eval cbv in [codes "B"; codes "KB"; codes "MB"; codes "GB"].

(** The [while] of lines 94-96, with [units_left] names after
    [size_names[i]]: [i < len(size_names) - 1] says that one is left. *)
Fixpoint scale_down (units_left : nat) (v : scaled_size) (i : nat)
    : scaled_size * nat :=
  match units_left with
  | O => (v, i)
  | S units_left' =>
      if at_least_1024 v
      then scale_down units_left' (divide_by_1024 v) (S i)
      else (v, i)
  end.

(** [f'{size_bytes:.1f}'], line 98, on a float that is known exactly: the
    number of tenths nearest to [num / den], a tie going to the even
    number of tenths. *)
Definition round_half_even (num den : Z) : Z :=
  let q := (num / den)%Z in
  let r := (num mod den)%Z in
  if (2 * r <? den)%Z then q
  else if (den <? 2 * r)%Z then (q + 1)%Z
  else if Z.even q then q
  else (q + 1)%Z.

Definition tenths (v : scaled_size) : Z :=
  round_half_even (10 * numerator v) (1024 ^ Z.of_nat (divisions v)).

(** The text of a number of tenths: sign, integer part, a dot and one
    decimal. *)
Definition one_decimal (t : Z) : str :=
  (if (t <? 0)%Z then [hyphen] else [])
  ++ decimal (Z.to_nat (Z.abs t / 10)) ++ [dot]
  ++ decimal (Z.to_nat (Z.abs t mod 10)).

Definition format_file_size (size_bytes : Z) : str :=
  if (size_bytes =? 0)%Z then codes "0 B"
  else
    let '(value, i) :=
      scale_down (length size_names - 1)
        {| numerator := size_bytes; divisions := 0 |} 0 in
    one_decimal (tenths value) ++ [space] ++ nth i size_names [].

(** ** The command line *)

(** The arguments [parse_args] returns that reach the pipeline. *)
Record Args := {
  arg_days : Z;
  arg_output : option str;
  arg_dry_run : bool
}.

(** The configuration [main] builds, lines 365-374, over the default
    output root of the platform. *)
Definition main_config (default_root : str) (args : Args) : Config :=
  let config := default_config default_root in
  {| days_idle := arg_days args;
     pdf_root := default (pdf_root config) (arg_output args);
     max_filename_length := max_filename_length config;
     max_retries := max_retries config;
     dry_run := arg_dry_run args |}.

(** The same configuration with another threshold. *)
Definition with_days_idle (days : Z) (cfg : Config) : Config :=
  {| days_idle := days; pdf_root := pdf_root cfg;
     max_filename_length := max_filename_length cfg;
     max_retries := max_retries cfg; dry_run := dry_run cfg |}.

(** ** Sample run

    Five open tabs: a page last visited twenty days ago, a page visited
    yesterday, a page visited exactly fourteen days ago, the browser's
    own new-tab page and a service worker; the threshold is fourteen
    days. *)

Module Sample.

Definition root : str := Eval cbv in codes "/srv/TabColdStore".
Definition today : str := Eval cbv in codes "2025-08-17".
Definition right_now : Z := 13399905600000000.
Definition one_day : Z := 86400000000.

Definition old_url : str := Eval cbv in codes "https://old.example/a".
Definition fresh_url : str := Eval cbv in codes "https://fresh.example/b".
Definition edge_url : str := Eval cbv in codes "https://edge.example/c".

Definition old_tab : Tab :=
  {| tab_id := Some (codes "A1"); tab_url := Some old_url;
     tab_title := Some (codes "Old: page?"); tab_type := Some page |}.

Definition fresh_tab : Tab :=
  {| tab_id := Some (codes "B2"); tab_url := Some fresh_url;
     tab_title := Some (codes "Fresh"); tab_type := Some page |}.

Definition edge_tab : Tab :=
  {| tab_id := Some (codes "C3"); tab_url := Some edge_url;
     tab_title := Some (codes "Old_ page_"); tab_type := Some page |}.

Definition newtab_tab : Tab :=
  {| tab_id := Some (codes "D4"); tab_url := Some (codes "chrome://newtab/");
     tab_title := Some (codes "New Tab"); tab_type := Some page |}.

Definition worker_tab : Tab :=
  {| tab_id := Some (codes "E5"); tab_url := Some old_url;
     tab_title := Some (codes "Old: page?");
     tab_type := Some (codes "service_worker") |}.

Definition history (url : str) : option Z :=
  if str_eqb url old_url then Some (right_now - 20 * one_day)%Z
  else if str_eqb url fresh_url then Some (right_now - one_day)%Z
  else if str_eqb url edge_url then Some (right_now - 14 * one_day)%Z
  else None.

(** The environment of a run, given the answer of the tab-list request,
    whether the history database can be copied, and the renderer. *)
Definition env_with (tabs : option (list Tab)) (copy : bool)
    (renderer : nat -> Tab -> str -> attempt_result) : Env :=
  {| history_exists := true; now := right_now; day_name := today;
     open_tabs := tabs; copy_history := copy; last_visit_time := history;
     render := renderer; st_size := fun _ => 2048%Z;
     netloc := fun _ => codes "example" |}.

Definition tabs : list Tab :=
  [old_tab; fresh_tab; edge_tab; newtab_tab; worker_tab].

Definition always (r : attempt_result) : nat -> Tab -> str -> attempt_result :=
  fun _ _ _ => r.

Definition env : Env := env_with (Some tabs) true (always Rendered).

Definition cfg_with (dry : bool) : Config :=
  {| days_idle := 14; pdf_root := root; max_filename_length := 80;
     max_retries := 3; dry_run := dry |}.

Definition cfg : Config := cfg_with false.

Definition empty_world : World :=
  {| files := ∅; index_file := None; close_requests := [];
     attempts := []; sleeps := 0; tmp_history := false |}.

(** No code point above 127 counts as alphanumeric: enough for the
    ASCII titles of the sample. *)
Definition ascii_only : N -> bool := fun _ => false.

End Sample.

Section Archiver.

(** [str.isalnum] on the code points from 128 upwards.  The table
    belongs to the Python runtime, not to the repository. *)
Variable uni_alnum : N -> bool.

(** [\w]: alphanumeric or underscore. *)
Definition is_word (c : N) : bool :=
  (c =? underscore)%N || (if (c <? 128)%N then ascii_alnum c else uni_alnum c).

(** The characters [[^\w\s.-]] does not match. *)
Definition is_kept (c : N) : bool :=
  is_word c || is_space c || (c =? dot)%N || (c =? hyphen)%N.

(** Line 73: every reserved character becomes an underscore. *)
Definition replace_reserved (text : str) : str :=
  map (fun c => if is_reserved c then underscore else c) text.

(** [re.sub(r'[^\w\s.-]', '', safe)] *)
Definition drop_disallowed (safe : str) : str := List.filter is_kept safe.

(** [re.sub(r'\s+', ' ', safe)]: every maximal run of white space
    becomes one space.  [in_run] says that the previous character
    belonged to the run being replaced. *)
Fixpoint collapse_ws (in_run : bool) (safe : str) : str :=
  match safe with
  | [] => []
  | c :: rest =>
      if is_space c
      then (if in_run then collapse_ws true rest
            else space :: collapse_ws true rest)
      else c :: collapse_ws false rest
  end.

Fixpoint lstrip (s : str) : str :=
  match s with
  | [] => []
  | c :: rest => if is_space c then lstrip rest else s
  end.

Fixpoint rstrip (s : str) : str :=
  match s with
  | [] => []
  | c :: rest =>
      match rstrip rest with
      | [] => if is_space c then [] else [c]
      | kept => c :: kept
      end
  end.

(** [safe.strip()] *)
Definition strip (s : str) : str := rstrip (lstrip s).

(** [safe[:max_length]], for a stop of either sign. *)
Definition slice_to (stop : Z) (s : str) : str :=
  if (0 <=? stop)%Z then take (Z.to_nat stop) s
  else take (length s - Z.to_nat (- stop)) s.

(** The part of [s] before its last space, when it has one. *)
Fixpoint before_last_space (s : str) : option str :=
  match s with
  | [] => None
  | c :: rest =>
      match before_last_space rest with
      | Some p => Some (c :: p)
      | None => if (c =? space)%N then Some [] else None
      end
  end.

(** [s.rsplit(' ', 1)[0]] *)
Definition rsplit_head (s : str) : str :=
  match before_last_space s with
  | Some p => p
  | None => s
  end.

(** The three substitutions and the [strip] of lines 73-75. *)
Definition normalise (text : str) : str :=
  strip (collapse_ws false (drop_disallowed (replace_reserved text))).

Definition safe_filename (text : str) (max_length : Z) : str :=
  let safe := normalise text in
  let safe :=
    if (max_length <? Z.of_nat (length safe))%Z
    then rsplit_head (slice_to max_length safe)
    else safe in
  match safe with
  | [] => untitled
  | _ => safe
  end.

(** *** The shape of a sanitised name

    A glyph is a character the second substitution keeps that is neither
    white space nor reserved.  A string is [loose] when it is made of
    glyphs and single spaces; it is [tidy] when moreover it does not end
    with a space.  [after_space] says that a space may not come next:
    the previous character was one, or the string starts here and may
    not start with one. *)

Definition is_glyph (c : N) : bool :=
  negb (is_space c) && is_kept c && negb (is_reserved c).

Fixpoint loose (after_space : bool) (s : str) : bool :=
  match s with
  | [] => true
  | c :: rest =>
      if (c =? space)%N then negb after_space && loose true rest
      else is_glyph c && loose false rest
  end.

Fixpoint tidy (after_space : bool) (s : str) : bool :=
  match s with
  | [] => true
  | c :: rest =>
      if (c =? space)%N
      then match rest with
           | [] => false
           | _ => negb after_space && tidy true rest
           end
      else is_glyph c && tidy false rest
  end.

Section Run.

Variable env : Env.
Variable cfg : Config.

Definition microseconds_per_day : Z := 86400000000.

(** Line 277. *)
Definition cutoff : Z := (now env - days_idle cfg * microseconds_per_day)%Z.

(** Line 278. *)
Definition day_dir : str := join (pdf_root cfg) (day_name env).

(** [dir.mkdir(parents=True, exist_ok=True)], below the output root. *)
Definition mkdir_day_dir (w : World) : World :=
  with_files (fun fs => {[ day_dir ]} ∪ ({[ pdf_root cfg ]} ∪ fs)) w.

(** Lines 320-328: the path the snapshot of a tab titled [title] is
    written to.  Among the numbered paths at most [size fs] exist, so
    [S (size fs)] tries are enough. *)
Definition choose_pdf_path (fs : gset str) (title : str) : option str :=
  let safe_title := safe_filename title (max_filename_length cfg) in
  let pdf_path := join day_dir (safe_title ++ dot_pdf) in
  if decide (pdf_path ∈ fs)
  then next_free fs day_dir
         (safe_filename title (max_filename_length cfg - 10))
         (S (size fs)) 1
  else Some pdf_path.

(** [ensure_html_header]: a missing index is created, with its
    header, under the output root. *)
Definition ensure_html_header (w : World) : World :=
  match index_file w with
  | Some _ => w
  | None =>
      with_index (Some []) (with_files (fun fs => {[ pdf_root cfg ]} ∪ fs) w)
  end.

(** [store_locally]: one row is appended to the index. *)
Definition store_locally (url title pdf_path : str) (logged : Z)
    (w : World) : World :=
  let w := ensure_html_header w in
  let file_size :=
    if decide (pdf_path ∈ files w) then st_size env pdf_path else 0%Z in
  let row :=
    {| logged_at := logged; row_title := title; row_url := url;
       row_domain := netloc env url; row_size := file_size;
       row_pdf := pdf_path |} in
  with_index (Some (default [] (index_file w) ++ [row])) w.

(** One pass through the [try] of lines 222-260.  The renderer is
    asked for the outcome of the attempt with the number of attempts
    made so far.  A written PDF appears in [files]; after a clean
    attempt the original tab is closed when the run is not a dry run
    and the tab has a non-empty id. *)
Definition try_render (tab : Tab) (pdf_path : str) (w : World)
    : outcome bool * World :=
  let answer := render env (length (attempts w)) tab pdf_path in
  let w := log_attempt tab pdf_path w in
  match answer with
  | NoPdf => (Raised, w)
  | PdfThenError => (Raised, with_files (fun fs => {[ pdf_path ]} ∪ fs) w)
  | Rendered =>
      let w := with_files (fun fs => {[ pdf_path ]} ∪ fs) w in
      let w :=
        match tab_id tab with
        | Some (c :: id) => if dry_run cfg then w else post_close (c :: id) w
        | _ => w
        end in
      (Returned true, w)
  end.

(** The [for attempt in range(max_retries)] of lines 221-267, with
    [todo] passes left; the [except] of line 262 catches whatever the
    attempt raised and sleeps unless the attempt was the last one. *)
Fixpoint attempt_loop (todo : nat) (attempt : Z) (tab : Tab)
    (pdf_path : str) (w : World) : bool * World :=
  match todo with
  | O => (false, w)
  | S todo' =>
      match try_render tab pdf_path w with
      | (Returned ok, w') => (ok, w')
      | (Raised, w') =>
          let w'' :=
            if (attempt <? max_retries cfg - 1)%Z then sleep_1s w' else w' in
          attempt_loop todo' (attempt + 1)%Z tab pdf_path w''
      end
  end.

Definition snap_and_close_tab (tab : Tab) (pdf_path : str) (w : World)
    : bool * World :=
  match tab_url tab with
  | None | Some [] => (false, w)
  | Some _ => attempt_loop (Z.to_nat (max_retries cfg)) 0 tab pdf_path w
  end.

(** Line 289. *)
Definition is_page (tab : Tab) : bool :=
  bool_decide (tab_type tab = Some page).

(** Line 306: [url.startswith((...))]. *)
Definition is_internal (url : str) : bool :=
  existsb (fun p => startswith p url) internal_prefixes.

(** What lines 303-316 decide for a tab of [page_tabs]. *)
Definition triage (tab : Tab) : verdict :=
  let url := url_of tab in
  match url with
  | [] => SkipUrl
  | _ =>
      if is_internal url then SkipUrl
      else
        match last_visit_time env url with
        | None => SkipNoHistory
        | Some last_visit =>
            if (cutoff <? last_visit)%Z then SkipRecent else Selected
        end
  end.

(** The body of the [for tab in page_tabs] of lines 302-344.  [None]
    only when the search for a free path was cut off. *)
Definition process_tab (tab : Tab) (processed : nat) (w : World)
    : option (nat * World) :=
  let url := url_of tab in
  let title := title_of tab in
  match triage tab with
  | Selected =>
      match choose_pdf_path (files w) title with
      | None => None
      | Some pdf_path =>
          if dry_run cfg then Some (S processed, w)
          else
            let (success, w') := snap_and_close_tab tab pdf_path w in
            if success
            then Some (S processed,
                       store_locally url title pdf_path (now env) w')
            else Some (processed, w')
      end
  | _ => Some (processed, w)
  end.

Fixpoint archive_loop (page_tabs : list Tab) (processed : nat)
    (w : World) : option (nat * World) :=
  match page_tabs with
  | [] => Some (processed, w)
  | tab :: rest =>
      match process_tab tab processed w with
      | None => None
      | Some (processed', w') => archive_loop rest processed' w'
      end
  end.

(** The tabs the run can archive: pages (line 289) whose URL is neither
    empty nor internal to the browser (line 306). *)
Definition archivable (tab : Tab) : bool :=
  is_page tab
  && match url_of tab with
     | [] => false
     | url => negb (is_internal url)
     end.

(** [get_open_tabs]: a failed request is answered with the empty
    list. *)
Definition get_open_tabs : list Tab := default [] (open_tabs env).

(** [process_tabs]: the pair (processed, total) and the world the
    run leaves.  A copy of the history database that fails is taken to
    leave nothing at the temporary path. *)
Definition process_tabs (w : World) : option ((nat * nat) * World) :=
  if history_exists env then
    let w := if dry_run cfg then w else mkdir_day_dir w in
    match get_open_tabs with
    | [] => Some ((0, 0), w)
    | tabs =>
        let page_tabs := List.filter is_page tabs in
        if copy_history env then
          match archive_loop page_tabs 0 (with_tmp_history true w) with
          | None => None
          | Some (processed, w') =>
              Some ((processed, length page_tabs),
                    with_tmp_history false w')
          end
        else Some ((0, length page_tabs), w)
    end
  else Some ((0, 0), w).

(** ** The test script

    [test_pdf_generation] of [Debug_tag.py] takes the first page tab and
    writes its snapshot under [test_pdfs], named by the same sanitiser
    with a maximum of 30; [None] when there is no page tab. *)

Definition test_pdfs : str := Eval cbv in codes "test_pdfs".

Definition test_pdf_path (tabs : list Tab) : option str :=
  match List.filter is_page tabs with
  | [] => None
  | tab :: _ =>
      let title := default (codes "test") (tab_title tab) in
      let clean_title := safe_filename title 30 in
      Some (join test_pdfs (clean_title ++ dot_pdf))
  end.

(** ** The filename sanitiser *)

Lemma space_is_space : is_space space = true.
Proof. reflexivity. Qed.

Lemma eqb_space_of_not_space (c : N) :
  is_space c = false -> (c =? space)%N = false.
Proof.
  intros H. destruct (N.eqb_spec c space) as [->|]; [|reflexivity].
  rewrite space_is_space in H. discriminate.
Qed.

Lemma glyph_not_space (c : N) : is_glyph c = true -> is_space c = false.
Proof.
  unfold is_glyph. intros H.
  apply andb_true_iff in H as [H _]. apply andb_true_iff in H as [H _].
  now apply negb_true_iff in H.
Qed.

Lemma glyph_kept (c : N) : is_glyph c = true -> is_kept c = true.
Proof.
  unfold is_glyph. intros H.
  apply andb_true_iff in H as [H _]. now apply andb_true_iff in H as [_ H].
Qed.

Lemma glyph_not_reserved (c : N) : is_glyph c = true -> is_reserved c = false.
Proof.
  unfold is_glyph. intros H.
  apply andb_true_iff in H as [_ H]. now apply negb_true_iff in H.
Qed.

(** After the first two substitutions every character is kept and none
    is reserved. *)
Lemma substituted_chars (text : str) :
  forallb (fun c => is_kept c && negb (is_reserved c))
    (drop_disallowed (replace_reserved text)) = true.
Proof.
  unfold drop_disallowed, replace_reserved.
  induction text as [|c text IH]; [reflexivity|].
  cbn [map List.filter].
  destruct (is_reserved c) eqn:Hres.
  - change (is_kept underscore) with true. cbn [forallb].
    rewrite IH. reflexivity.
  - destruct (is_kept c) eqn:Hkept; [|exact IH].
    cbn [forallb]. rewrite Hkept, Hres, IH. reflexivity.
Qed.

Lemma collapse_ws_loose (s : str) : forall b,
  forallb (fun c => is_kept c && negb (is_reserved c)) s = true ->
  loose b (collapse_ws b s) = true.
Proof.
  induction s as [|c s IH]; intros b H; [reflexivity|].
  cbn [forallb] in H. apply andb_true_iff in H as [Hc Hs].
  apply andb_true_iff in Hc as [Hkept Hres].
  cbn [collapse_ws]. destruct (is_space c) eqn:Hsp.
  - destruct b; [now apply IH|].
    cbn [loose]. rewrite N.eqb_refl. now apply IH.
  - cbn [loose]. rewrite (eqb_space_of_not_space _ Hsp).
    unfold is_glyph. rewrite Hsp, Hkept, Hres. now apply IH.
Qed.

Lemma loose_weaken (s : str) : loose true s = true -> loose false s = true.
Proof.
  destruct s as [|c s]; [reflexivity|]. cbn [loose].
  destruct (c =? space)%N; [discriminate | auto].
Qed.

Lemma lstrip_loose (s : str) : forall b,
  loose b s = true -> loose true (lstrip s) = true.
Proof.
  induction s as [|c s IH]; intros b H; [reflexivity|].
  cbn [lstrip]. cbn [loose] in H.
  destruct (c =? space)%N eqn:Hc.
  - apply N.eqb_eq in Hc. subst c. rewrite space_is_space.
    apply andb_true_iff in H as [_ H]. now apply (IH true).
  - apply andb_true_iff in H as [Hg Hs].
    rewrite (glyph_not_space _ Hg). cbn [loose]. rewrite Hc, Hg. exact Hs.
Qed.

Lemma rstrip_tidy (s : str) : forall b,
  loose b s = true -> tidy b (rstrip s) = true.
Proof.
  induction s as [|c s IH]; intros b H; [reflexivity|].
  cbn [loose] in H. cbn [rstrip].
  destruct (c =? space)%N eqn:Hc.
  - apply N.eqb_eq in Hc. subst c.
    apply andb_true_iff in H as [Hb Hs]. specialize (IH true Hs).
    destruct (rstrip s) as [|k ks]; [now rewrite space_is_space|].
    cbn [tidy]. rewrite N.eqb_refl, Hb. exact IH.
  - apply andb_true_iff in H as [Hg Hs]. specialize (IH false Hs).
    destruct (rstrip s) as [|k ks].
    + rewrite (glyph_not_space _ Hg). cbn [tidy]. now rewrite Hc, Hg.
    + cbn [tidy]. rewrite Hc, Hg. exact IH.
Qed.

Lemma normalise_tidy (text : str) : tidy true (normalise text) = true.
Proof.
  unfold normalise, strip. apply rstrip_tidy.
  apply (lstrip_loose _ false). apply collapse_ws_loose, substituted_chars.
Qed.

Lemma tidy_loose (s : str) : forall b, tidy b s = true -> loose b s = true.
Proof.
  induction s as [|c s IH]; intros b H; [reflexivity|].
  cbn [tidy] in H. cbn [loose].
  destruct (c =? space)%N.
  - destruct s as [|k ks]; [discriminate|].
    apply andb_true_iff in H as [Hb Hs]. rewrite Hb. now apply IH.
  - apply andb_true_iff in H as [Hg Hs]. rewrite Hg. now apply IH.
Qed.

Lemma loose_take (s : str) : forall b n,
  loose b s = true -> loose b (take n s) = true.
Proof.
  induction s as [|c s IH]; intros b n H; [now destruct n|].
  destruct n as [|n]; [reflexivity|].
  cbn [take loose] in *.
  destruct (c =? space)%N; apply andb_true_iff in H as [H1 H2];
    rewrite H1; now apply IH.
Qed.

(** Cutting a loose string before its last space leaves a tidy one. *)
Lemma before_last_space_tidy (s : str) : forall b,
  loose b s = true ->
  match before_last_space s with
  | Some p => tidy b p = true /\ (b = true -> p <> [])
  | None => tidy b s = true
  end.
Proof.
  induction s as [|c s IH]; intros b H; [reflexivity|].
  cbn [loose] in H. cbn [before_last_space].
  destruct (c =? space)%N eqn:Hc.
  - apply andb_true_iff in H as [Hb Hs]. specialize (IH true Hs).
    destruct (before_last_space s) as [p|].
    + destruct IH as [Hp Hne]. split; [|discriminate].
      cbn [tidy]. rewrite Hc. destruct p as [|k ks]; [now elim Hne|].
      now rewrite Hb.
    + split; [reflexivity|]. intros ->. discriminate.
  - apply andb_true_iff in H as [Hg Hs]. specialize (IH false Hs).
    destruct (before_last_space s) as [p|].
    + destruct IH as [Hp _]. split; [|discriminate].
      cbn [tidy]. now rewrite Hc, Hg.
    + cbn [tidy]. now rewrite Hc, Hg.
Qed.

Lemma rsplit_head_tidy (s : str) :
  loose true s = true -> tidy true (rsplit_head s) = true.
Proof.
  intros H. unfold rsplit_head.
  pose proof (before_last_space_tidy s true H) as Hs.
  destruct (before_last_space s); [apply Hs | exact Hs].
Qed.

Lemma slice_to_loose (s : str) (stop : Z) :
  tidy true s = true -> loose true (slice_to stop s) = true.
Proof.
  intros H. unfold slice_to.
  destruct (0 <=? stop)%Z; apply loose_take; now apply tidy_loose.
Qed.

Lemma untitled_tidy : tidy true untitled = true.
Proof. reflexivity. Qed.

(** The sanitiser returns a tidy name. *)
Lemma safe_filename_tidy (text : str) (max_length : Z) :
  tidy true (safe_filename text max_length) = true.
Proof.
  unfold safe_filename.
  pose proof (normalise_tidy text) as Ht.
  destruct (max_length <? Z.of_nat (length (normalise text)))%Z.
  - pose proof (rsplit_head_tidy _ (slice_to_loose _ max_length Ht)) as Hu.
    destruct (rsplit_head (slice_to max_length (normalise text)));
      [apply untitled_tidy | exact Hu].
  - destruct (normalise text); [apply untitled_tidy | exact Ht].
Qed.

Lemma safe_filename_nonempty (text : str) (max_length : Z) :
  safe_filename text max_length <> [].
Proof.
  unfold safe_filename.
  destruct (if (max_length <? _)%Z then _ else _); discriminate.
Qed.

Lemma tidy_no_reserved (s : str) : forall b c,
  tidy b s = true -> c ∈ s -> is_reserved c = false.
Proof.
  induction s as [|k s IH]; intros b c H Hin; [now apply elem_of_nil in Hin|].
  cbn [tidy] in H. apply elem_of_cons in Hin as [->|Hin].
  - destruct (k =? space)%N eqn:Hk.
    + apply N.eqb_eq in Hk. now subst k.
    + apply andb_true_iff in H as [Hg _]. now apply glyph_not_reserved.
  - destruct (k =? space)%N.
    + destruct s as [|k' s']; [discriminate|].
      apply andb_true_iff in H as [_ H]. now apply (IH true).
    + apply andb_true_iff in H as [_ H]. now apply (IH false).
Qed.

Lemma before_last_space_length (s : str) :
  match before_last_space s with
  | Some p => length p < length s
  | None => True
  end.
Proof.
  induction s as [|c s IH]; [exact I|]. cbn [before_last_space].
  destruct (before_last_space s) as [p|].
  - cbn [length]. lia.
  - destruct (c =? space)%N; [cbn [length]; lia | exact I].
Qed.

Lemma rsplit_head_length (s : str) : length (rsplit_head s) <= length s.
Proof.
  unfold rsplit_head. pose proof (before_last_space_length s) as H.
  destruct (before_last_space s); lia.
Qed.

Lemma slice_to_length (s : str) (stop : Z) :
  (0 <= stop)%Z -> (Z.of_nat (length (slice_to stop s)) <= stop)%Z.
Proof.
  intros H. unfold slice_to.
  destruct (Z.leb_spec 0 stop); [|lia]. rewrite length_take. lia.
Qed.

Lemma safe_filename_length (text : str) (max_length : Z) :
  (0 <= max_length)%Z ->
  (Z.of_nat (length (safe_filename text max_length)) <= max_length)%Z
  \/ safe_filename text max_length = untitled.
Proof.
  intros Hm. unfold safe_filename.
  destruct (Z.ltb_spec max_length (Z.of_nat (length (normalise text)))).
  - pose proof (rsplit_head_length (slice_to max_length (normalise text))).
    pose proof (slice_to_length (normalise text) max_length Hm).
    destruct (rsplit_head (slice_to max_length (normalise text)));
      [now right | left; lia].
  - destruct (normalise text); [now right | now left].
Qed.

(** C3, as amended: for every input and every maximum length the name
    holds no reserved character and is not empty; it is no longer than a
    maximum of 8 or more; under a smaller maximum that is not negative
    the only name longer than the maximum is the fallback. *)
Theorem safe_filename_sanitises (text : str) (max_length : Z) :
  (forall c, c ∈ safe_filename text max_length -> is_reserved c = false)
  /\ safe_filename text max_length <> []
  /\ ((8 <= max_length)%Z ->
      (Z.of_nat (length (safe_filename text max_length)) <= max_length)%Z)
  /\ ((0 <= max_length)%Z ->
      (Z.of_nat (length (safe_filename text max_length)) <= max_length)%Z
      \/ safe_filename text max_length = untitled).
Proof.
  split; [|split; [|split]].
  - intros c. apply (tidy_no_reserved _ true), safe_filename_tidy.
  - apply safe_filename_nonempty.
  - intros Hm.
    destruct (safe_filename_length text max_length) as [H| ->]; [lia|exact H|].
    cbn [untitled length]. lia.
  - apply safe_filename_length.
Qed.

(** A tidy string is a fixed point of every step of [normalise]. *)
Lemma tidy_replace_reserved (s : str) : forall b,
  tidy b s = true -> replace_reserved s = s.
Proof.
  unfold replace_reserved.
  induction s as [|c s IH]; intros b H; [reflexivity|].
  cbn [map]. rewrite (tidy_no_reserved (c :: s) b c H) by apply list_elem_of_here.
  f_equal. cbn [tidy] in H. destruct (c =? space)%N.
  - destruct s as [|k ks]; [reflexivity|].
    apply andb_true_iff in H as [_ H]. now apply (IH true).
  - apply andb_true_iff in H as [_ H]. now apply (IH false).
Qed.

Lemma tidy_drop_disallowed (s : str) : forall b,
  tidy b s = true -> drop_disallowed s = s.
Proof.
  unfold drop_disallowed.
  induction s as [|c s IH]; intros b H; [reflexivity|].
  cbn [List.filter]. cbn [tidy] in H. destruct (c =? space)%N eqn:Hc.
  - apply N.eqb_eq in Hc. subst c. change (is_kept space) with true.
    f_equal. destruct s as [|k ks]; [reflexivity|].
    apply andb_true_iff in H as [_ H]. now apply (IH true).
  - apply andb_true_iff in H as [Hg H]. rewrite (glyph_kept _ Hg).
    f_equal. now apply (IH false).
Qed.

Lemma tidy_collapse_ws (s : str) : forall b,
  tidy b s = true -> collapse_ws b s = s.
Proof.
  induction s as [|c s IH]; intros b H; [reflexivity|].
  cbn [collapse_ws]. cbn [tidy] in H. destruct (c =? space)%N eqn:Hc.
  - apply N.eqb_eq in Hc. subst c. rewrite space_is_space.
    destruct s as [|k ks]; [discriminate|].
    apply andb_true_iff in H as [Hb H]. apply negb_true_iff in Hb. subst b.
    f_equal. now apply IH.
  - apply andb_true_iff in H as [Hg H]. rewrite (glyph_not_space _ Hg).
    f_equal. now apply IH.
Qed.

Lemma tidy_weaken (s : str) : tidy true s = true -> tidy false s = true.
Proof.
  destruct s as [|c s]; [reflexivity|]. cbn [tidy].
  destruct (c =? space)%N; [|auto].
  destruct s; [auto | discriminate].
Qed.

Lemma tidy_lstrip (s : str) : tidy true s = true -> lstrip s = s.
Proof.
  destruct s as [|c s]; [reflexivity|]. cbn [tidy lstrip].
  destruct (c =? space)%N.
  - destruct s; discriminate.
  - intros H. apply andb_true_iff in H as [Hg _].
    now rewrite (glyph_not_space _ Hg).
Qed.

Lemma tidy_rstrip (s : str) : forall b, tidy b s = true -> rstrip s = s.
Proof.
  induction s as [|c s IH]; intros b H; [reflexivity|].
  cbn [rstrip]. cbn [tidy] in H. destruct (c =? space)%N.
  - destruct s as [|k ks]; [discriminate|].
    apply andb_true_iff in H as [_ H]. now rewrite (IH true H).
  - apply andb_true_iff in H as [Hg H]. rewrite (IH false H).
    destruct s; [now rewrite (glyph_not_space _ Hg) | reflexivity].
Qed.

Lemma normalise_fixed (s : str) : tidy true s = true -> normalise s = s.
Proof.
  intros H. unfold normalise, strip.
  rewrite (tidy_replace_reserved s true H), (tidy_drop_disallowed s true H).
  rewrite (tidy_collapse_ws s false (tidy_weaken s H)).
  rewrite (tidy_lstrip s H). now apply (tidy_rstrip s true).
Qed.

(** The sanitiser returns a tidy name that fits as it is. *)
Lemma safe_filename_fixed (s : str) (max_length : Z) :
  tidy true s = true -> s <> [] ->
  (Z.of_nat (length s) <= max_length)%Z ->
  safe_filename s max_length = s.
Proof.
  intros Ht Hne Hlen. unfold safe_filename. rewrite (normalise_fixed s Ht).
  destruct (Z.ltb_spec max_length (Z.of_nat (length s))); [lia|].
  destruct s; [now elim Hne | reflexivity].
Qed.

(** With a maximum of zero every name is cut down to nothing. *)
Lemma safe_filename_zero (text : str) : safe_filename text 0 = untitled.
Proof.
  unfold safe_filename.
  destruct (0 <? Z.of_nat (length (normalise text)))%Z eqn:H; [reflexivity|].
  destruct (normalise text); [reflexivity|].
  cbn [length] in H. apply Z.ltb_ge in H. lia.
Qed.

(** C10, as amended: [safe_filename] is idempotent for every input when
    the maximum length is 0 or at least 8, the length of the fallback. *)
Theorem safe_filename_idempotent (text : str) (max_length : Z) :
  max_length = 0%Z \/ (8 <= max_length)%Z ->
  safe_filename (safe_filename text max_length) max_length
  = safe_filename text max_length.
Proof.
  intros [-> | Hm].
  - now rewrite !safe_filename_zero.
  - apply safe_filename_fixed.
    + apply safe_filename_tidy.
    + apply safe_filename_nonempty.
    + destruct (safe_filename_length text max_length) as [H|H]; [lia|exact H|].
      rewrite H. cbn [untitled length]. lia.
Qed.

(** Whatever the table of alphanumeric code points, the empty title
    gives the fallback under a maximum of 5, and the fallback itself is
    cut to five characters. *)
Example fallback_exceeds_small_maximum : safe_filename [] 5 = untitled.
Proof. reflexivity. Qed.

Example fallback_is_cut : safe_filename untitled 5 = take 5 untitled.
Proof. reflexivity. Qed.

(** ** Choosing the path of a snapshot *)

Lemma codes_inj (a b : string) : codes a = codes b -> a = b.
Proof.
  unfold codes. intros H.
  rewrite <- (String.string_of_list_ascii_of_string a),
          <- (String.string_of_list_ascii_of_string b).
  f_equal. revert H.
  generalize (String.list_ascii_of_string a) (String.list_ascii_of_string b).
  induction l as [|x l IH]; intros [|y l'] H; try discriminate; [reflexivity|].
  injection H as Hxy Hl. f_equal; [|now apply IH].
  rewrite <- (ascii_N_embedding x), <- (ascii_N_embedding y). now rewrite Hxy.
Qed.

Lemma decimal_inj (a b : nat) : decimal a = decimal b -> a = b.
Proof.
  unfold decimal. intros H. apply codes_inj in H.
  apply Unsigned.to_uint_inj.
  pose proof (NilEmpty.usu (Nat.to_uint a)) as Ha.
  rewrite H, NilEmpty.usu in Ha. congruence.
Qed.

Lemma numbered_inj (dir stem : str) (a b : nat) :
  numbered dir stem a = numbered dir stem b -> a = b.
Proof.
  unfold numbered, join. intros H.
  do 4 apply List.app_inv_head in H.
  apply List.app_inv_tail in H. now apply decimal_inj.
Qed.

(** A search that gives up has seen every numbered path it tried. *)
Lemma next_free_None (fs : gset str) (dir stem : str) : forall fuel c,
  next_free fs dir stem fuel c = None ->
  forall k, c <= k < c + fuel -> numbered dir stem k ∈ fs.
Proof.
  induction fuel as [|fuel IH]; intros c H k Hk; [lia|].
  cbn [next_free] in H.
  destruct (decide (numbered dir stem c ∈ fs)) as [Hin|]; [|discriminate].
  destruct (decide (k = c)) as [->|]; [exact Hin|].
  apply (IH (S c) H). lia.
Qed.

(** The numbered paths are pairwise distinct and [fs] is finite, so the
    search never gives up: the loop of lines 325-328 terminates. *)
Lemma next_free_total (fs : gset str) (dir stem : str) (c : nat) :
  is_Some (next_free fs dir stem (S (size fs)) c).
Proof.
  destruct (next_free fs dir stem (S (size fs)) c) eqn:H; [eauto|]. exfalso.
  pose proof (next_free_None _ _ _ _ _ H) as Hall.
  set (l := numbered dir stem <$> seq c (S (size fs))).
  assert (NoDup l) as Hnd.
  { apply NoDup_fmap_2_strong; [|apply NoDup_seq].
    intros x y _ _. apply numbered_inj. }
  assert (list_to_set l ⊆ fs) as Hsub.
  { intros p Hp. apply elem_of_list_to_set in Hp.
    apply list_elem_of_fmap in Hp as (k & -> & Hk).
    apply elem_of_seq in Hk. apply Hall. lia. }
  apply subseteq_size in Hsub.
  rewrite size_list_to_set in Hsub by exact Hnd.
  unfold l in Hsub. rewrite length_fmap, length_seq in Hsub. lia.
Qed.

Lemma next_free_found (fs : gset str) (dir stem : str) : forall fuel c p,
  next_free fs dir stem fuel c = Some p ->
  (p ∉ fs) /\ exists k, c <= k /\ p = numbered dir stem k.
Proof.
  induction fuel as [|fuel IH]; intros c p H; [discriminate|].
  cbn [next_free] in H.
  destruct (decide (numbered dir stem c ∈ fs)) as [Hin|Hout].
  - destruct (IH _ _ H) as (Hp & k & Hk & ->).
    split; [exact Hp|]. exists k. split; [lia | reflexivity].
  - injection H as <-. split; [exact Hout|]. now exists c.
Qed.

(** Lines 320-328 always arrive at a path. *)
Lemma choose_pdf_path_total (fs : gset str) (title : str) :
  is_Some (choose_pdf_path fs title).
Proof.
  unfold choose_pdf_path. destruct (decide (_ ∈ fs)); [|eauto].
  apply next_free_total.
Qed.

(** The path chosen does not exist yet. *)
Lemma choose_pdf_path_fresh (fs : gset str) (title pdf_path : str) :
  choose_pdf_path fs title = Some pdf_path -> pdf_path ∉ fs.
Proof.
  unfold choose_pdf_path. destruct (decide (_ ∈ fs)) as [|Hout].
  - intros H. now apply next_free_found in H.
  - intros H. injection H as <-. exact Hout.
Qed.

(** When the plain path exists, the path chosen carries a counter. *)
Lemma choose_pdf_path_numbered (fs : gset str) (title pdf_path : str) :
  join day_dir (safe_filename title (max_filename_length cfg) ++ dot_pdf) ∈ fs ->
  choose_pdf_path fs title = Some pdf_path ->
  exists counter, 1 <= counter /\
    pdf_path = numbered day_dir
                 (safe_filename title (max_filename_length cfg - 10)) counter.
Proof.
  unfold choose_pdf_path. intros Hin.
  destruct (decide (_ ∈ fs)) as [|Hout]; [|contradiction].
  intros H. now apply next_free_found in H.
Qed.

(** ** Rendering with retries *)

Lemma replicate_cons_middle {A : Type} (n : nat) (x : A) (l : list A) :
  replicate n x ++ x :: l = x :: replicate n x ++ l.
Proof.
  induction n as [|n IH]; [reflexivity|].
  cbn [replicate app]. now rewrite IH.
Qed.

(** What one attempt changes. *)
Lemma try_render_effects (tab : Tab) (pdf_path : str) (w : World) :
  let r := try_render tab pdf_path w in
  index_file (snd r) = index_file w
  /\ files w ⊆ files (snd r)
  /\ attempts (snd r) = (tab, pdf_path) :: attempts w
  /\ sleeps (snd r) = sleeps w
  /\ tmp_history (snd r) = tmp_history w
  /\ (dry_run cfg = true -> close_requests (snd r) = close_requests w)
  /\ ((fst r = Returned true
       /\ pdf_path ∈ files (snd r)
       /\ render env (length (attempts w)) tab pdf_path = Rendered)
      \/ (fst r = Raised
          /\ close_requests (snd r) = close_requests w
          /\ render env (length (attempts w)) tab pdf_path <> Rendered)).
Proof.
  unfold try_render.
  destruct (render env (length (attempts w)) tab pdf_path) eqn:Hr;
    cbn [fst snd].
  - assert (forall w0 : World,
              let w1 := match tab_id tab with
                        | Some (c :: id) =>
                            if dry_run cfg then w0 else post_close (c :: id) w0
                        | _ => w0
                        end in
              index_file w1 = index_file w0 /\ files w1 = files w0
              /\ attempts w1 = attempts w0 /\ sleeps w1 = sleeps w0
              /\ tmp_history w1 = tmp_history w0
              /\ (dry_run cfg = true -> close_requests w1 = close_requests w0))
      as Hclose.
    { intros w0. destruct (tab_id tab) as [[|c id]|]; cbn; try done.
      destruct (dry_run cfg); cbn; repeat split; done. }
    match goal with
    | |- context [match tab_id tab with _ => _ end] =>
        match goal with
        | |- context [index_file ?w1 = _] =>
            match w1 with
            | context [with_files ?f ?w0] =>
                destruct (Hclose (with_files f w0))
                  as (H1 & H2 & H3 & H4 & H5 & H6)
            end
        end
    end.
    rewrite H1, H2, H3, H4, H5. cbn.
    repeat split; [set_solver | exact H6 |].
    left. repeat split. set_solver.
  - cbn. repeat split; [set_solver|].
    right. repeat split. discriminate.
  - cbn. repeat split; [set_solver|].
    right. repeat split. discriminate.
Qed.

(** What the retry loop changes: at most [todo] attempts, all for the
    same tab and path, with one pause after each attempt that is
    followed by another. *)
Lemma attempt_loop_effects (tab : Tab) (pdf_path : str) :
  forall todo attempt w,
  todo = 0 \/ (Z.of_nat todo + attempt = max_retries cfg)%Z ->
  let r := attempt_loop todo attempt tab pdf_path w in
  index_file (snd r) = index_file w
  /\ files w ⊆ files (snd r)
  /\ tmp_history (snd r) = tmp_history w
  /\ (dry_run cfg = true -> close_requests (snd r) = close_requests w)
  /\ (fst r = false -> close_requests (snd r) = close_requests w)
  /\ (fst r = true ->
      pdf_path ∈ files (snd r)
      /\ exists k, render env k tab pdf_path = Rendered)
  /\ exists n,
      n <= todo /\ (1 <= todo -> 1 <= n) /\ (fst r = false -> n = todo)
      /\ attempts (snd r) = replicate n (tab, pdf_path) ++ attempts w
      /\ sleeps (snd r) = sleeps w + (n - 1).
Proof.
  induction todo as [|todo IH]; intros attempt w Hinv.
  - cbn. repeat split; try done. exists 0. cbn. repeat split; lia.
  - cbn [attempt_loop].
    pose proof (try_render_effects tab pdf_path w) as Ht. cbn zeta in Ht.
    destruct (try_render tab pdf_path w) as [res w1]. cbn [fst snd] in Ht.
    destruct Ht as (Hix & Hfs & Hat & Hsl & Htmp & Hdry & Hres).
    destruct Hres as [(-> & Hin & Hrend) | (-> & Hcl & Hrend)].
    + cbn [fst snd]. repeat split; try done; [eauto|].
      exists 1. cbn. rewrite Hat, Hsl. repeat split; lia.
    + set (w2 := if (attempt <? max_retries cfg - 1)%Z then sleep_1s w1 else w1).
      assert (index_file w2 = index_file w1 /\ files w2 = files w1
              /\ tmp_history w2 = tmp_history w1
              /\ close_requests w2 = close_requests w1
              /\ attempts w2 = attempts w1
              /\ sleeps w2 = sleeps w1 + (if (attempt <? max_retries cfg - 1)%Z
                                          then 1 else 0)) as Hw2.
      { unfold w2. destruct (attempt <? max_retries cfg - 1)%Z; cbn;
          repeat split; lia. }
      destruct Hw2 as (Hix2 & Hfs2 & Htmp2 & Hcl2 & Hat2 & Hsl2).
      assert (todo = 0 \/ (Z.of_nat todo + (attempt + 1) = max_retries cfg)%Z)
        as Hinv' by lia.
      specialize (IH (attempt + 1)%Z w2 Hinv'). cbn zeta in IH.
      destruct (attempt_loop todo (attempt + 1) tab pdf_path w2) as [ok w3].
      cbn [fst snd] in *.
      destruct IH as (Hix3 & Hfs3 & Htmp3 & Hdry3 & Hfalse3 & Htrue3 & n & Hn).
      destruct Hn as (Hle & Hpos & Hall & Hat3 & Hsl3).
      repeat split; try congruence.
      * rewrite <- Hfs2 in Hfs. set_solver.
      * intros Hd. rewrite (Hdry3 Hd). congruence.
      * intros Hf. rewrite (Hfalse3 Hf). congruence.
      * now apply Htrue3.
      * now apply Htrue3.
      * exists (S n). repeat split; [lia | lia | intros Hf; f_equal; auto | |].
        -- rewrite Hat3, Hat2, Hat. cbn [replicate app].
           apply replicate_cons_middle.
        -- rewrite Hsl3, Hsl2, Hsl.
           destruct (Z.ltb_spec attempt (max_retries cfg - 1)); lia.
Qed.

Lemma snap_and_close_tab_effects (tab : Tab) (pdf_path : str) (w : World) :
  let r := snap_and_close_tab tab pdf_path w in
  index_file (snd r) = index_file w
  /\ files w ⊆ files (snd r)
  /\ tmp_history (snd r) = tmp_history w
  /\ (dry_run cfg = true -> close_requests (snd r) = close_requests w)
  /\ (fst r = false -> close_requests (snd r) = close_requests w)
  /\ (fst r = true ->
      pdf_path ∈ files (snd r)
      /\ exists k, render env k tab pdf_path = Rendered)
  /\ exists n,
      n <= Z.to_nat (max_retries cfg)
      /\ (fst r = false -> url_of tab <> [] -> n = Z.to_nat (max_retries cfg))
      /\ attempts (snd r) = replicate n (tab, pdf_path) ++ attempts w
      /\ sleeps (snd r) = sleeps w + (n - 1).
Proof.
  unfold snap_and_close_tab, url_of.
  destruct (tab_url tab) as [[|c url]|]; cbn [default].
  1,3: cbn; repeat split; try done; exists 0; cbn; repeat split;
         try lia; congruence.
  assert (Z.to_nat (max_retries cfg) = 0
          \/ (Z.of_nat (Z.to_nat (max_retries cfg)) + 0 = max_retries cfg)%Z)
    as Hinv by lia.
  pose proof (attempt_loop_effects tab pdf_path _ 0%Z w Hinv) as H.
  cbn zeta in *.
  destruct H as (H1 & H2 & H3 & H4 & H5 & H6 & n & Hle & _ & Hall & Hat & Hsl).
  repeat split; try done; try (now apply H6).
  exists n. repeat split; auto.
Qed.

(** ** One tab *)

Lemma store_locally_effects (url title pdf_path : str) (logged : Z)
    (w : World) :
  let w' := store_locally url title pdf_path logged w in
  files w ⊆ files w'
  /\ close_requests w' = close_requests w
  /\ attempts w' = attempts w
  /\ sleeps w' = sleeps w
  /\ tmp_history w' = tmp_history w
  /\ exists row,
      index_file w' = Some (rows w ++ [row])
      /\ row_pdf row = pdf_path /\ row_url row = url
      /\ row_title row = title /\ logged_at row = logged.
Proof.
  unfold store_locally, ensure_html_header, rows.
  destruct (index_file w) as [ix|] eqn:Hix; cbn; rewrite ?Hix; cbn.
  - repeat split; [set_solver|]. eexists. repeat split.
  - repeat split; [set_solver|]. eexists. repeat split.
Qed.

(** The body of the loop, case by case. *)
Lemma process_tab_cases (tab : Tab) (processed : nat) (w : World) :
  (triage tab <> Selected /\ process_tab tab processed w = Some (processed, w))
  \/ (triage tab = Selected
      /\ exists pdf_path,
          choose_pdf_path (files w) (title_of tab) = Some pdf_path
          /\ (pdf_path ∉ files w)
          /\ ((dry_run cfg = true
               /\ process_tab tab processed w = Some (S processed, w))
              \/ (dry_run cfg = false
                  /\ fst (snap_and_close_tab tab pdf_path w) = true
                  /\ process_tab tab processed w
                     = Some (S processed,
                             store_locally (url_of tab) (title_of tab) pdf_path
                               (now env)
                               (snd (snap_and_close_tab tab pdf_path w))))
              \/ (dry_run cfg = false
                  /\ fst (snap_and_close_tab tab pdf_path w) = false
                  /\ process_tab tab processed w
                     = Some (processed,
                             snd (snap_and_close_tab tab pdf_path w))))).
Proof.
  unfold process_tab.
  destruct (triage tab) eqn:Htri; try (left; split; [discriminate|reflexivity]).
  right. split; [reflexivity|].
  destruct (choose_pdf_path_total (files w) (title_of tab)) as [pdf_path Hp].
  exists pdf_path. rewrite Hp.
  split; [reflexivity|]. split; [now apply choose_pdf_path_fresh in Hp|].
  destruct (dry_run cfg); [left; now split|]. right.
  destruct (snap_and_close_tab tab pdf_path w) as [[|] w1]; cbn [fst snd];
    [left | right]; now repeat split.
Qed.

Lemma process_tab_total (tab : Tab) (processed : nat) (w : World) :
  is_Some (process_tab tab processed w).
Proof.
  destruct (process_tab_cases tab processed w)
    as [[_ ->] | (_ & p & _ & _ & [[_ ->] | [(_ & _ & ->) | (_ & _ & ->)]])];
    eauto.
Qed.

(** A step of the loop only adds files, and every attempt it makes is for
    its own tab, which it selected. *)
Lemma process_tab_grows (tab : Tab) (processed processed' : nat)
    (w w' : World) :
  process_tab tab processed w = Some (processed', w') ->
  files w ⊆ files w'
  /\ tmp_history w' = tmp_history w
  /\ forall x, x ∈ attempts w' ->
       x ∈ attempts w \/ (x.1 = tab /\ triage tab = Selected).
Proof.
  intros H.
  destruct (process_tab_cases tab processed w)
    as [[_ E] | (Htri & p & _ & _ & [[_ E] | [(_ & _ & E) | (_ & _ & E)]])];
    rewrite E in H; injection H as <- <-; try (repeat split; auto; fail).
  - pose proof (snap_and_close_tab_effects tab p w) as Hs. cbn zeta in Hs.
    destruct Hs as (_ & Hfs & Htmp & _ & _ & _ & n & _ & _ & Hat & _).
    pose proof (store_locally_effects (url_of tab) (title_of tab) p (now env)
                  (snd (snap_and_close_tab tab p w))) as Hst.
    cbn zeta in Hst. destruct Hst as (Hfs2 & _ & Hat2 & _ & Htmp2 & _).
    repeat split; [set_solver | congruence |].
    intros x. rewrite Hat2, Hat, elem_of_app, elem_of_replicate.
    intros [[-> _] | Hx]; [right; now split | now left].
  - pose proof (snap_and_close_tab_effects tab p w) as Hs. cbn zeta in Hs.
    destruct Hs as (_ & Hfs & Htmp & _ & _ & _ & n & _ & _ & Hat & _).
    repeat split; [exact Hfs | exact Htmp |].
    intros x. rewrite Hat, elem_of_app, elem_of_replicate.
    intros [[-> _] | Hx]; [right; now split | now left].
Qed.

(** ** The loop over the page tabs *)

Lemma archive_loop_total (page_tabs : list Tab) : forall processed w,
  is_Some (archive_loop page_tabs processed w).
Proof.
  induction page_tabs as [|tab rest IH]; intros processed w; cbn; [eauto|].
  destruct (process_tab_total tab processed w) as [[p1 w1] ->]. apply IH.
Qed.

Lemma archive_loop_grows (page_tabs : list Tab) :
  forall processed w processed' w',
  archive_loop page_tabs processed w = Some (processed', w') ->
  files w ⊆ files w'
  /\ tmp_history w' = tmp_history w
  /\ forall x, x ∈ attempts w' ->
       x ∈ attempts w \/ (x.1 ∈ page_tabs /\ triage x.1 = Selected).
Proof.
  induction page_tabs as [|tab rest IH]; intros processed w processed' w' H.
  - injection H as <- <-. repeat split; auto.
  - cbn [archive_loop] in H.
    destruct (process_tab tab processed w) as [[p1 w1]|] eqn:Hstep;
      [|discriminate].
    apply process_tab_grows in Hstep as (Hfs1 & Htmp1 & Hat1).
    apply IH in H as (Hfs2 & Htmp2 & Hat2).
    repeat split; [set_solver | congruence |].
    intros x Hx. destruct (Hat2 x Hx) as [Hx1 | [Hin Htri]].
    + destruct (Hat1 x Hx1) as [Hx0 | [-> Htri]]; [now left|].
      right. split; [apply list_elem_of_here | now rewrite <- Htri at 1].
    + right. split; [now apply list_elem_of_further | exact Htri].
Qed.

(** ** Index rows and snapshots *)

(** C2: in a run that is not a dry run, the step for a tab appends
    exactly one row to the index, naming the snapshot written, when the
    tab is selected and the render step returns [True]; otherwise (the
    tab is passed over, or the render step returns [False] after its
    retries) the index is left as it was. *)
Theorem index_row_iff_render_succeeds (tab : Tab) (processed : nat)
    (w : World) :
  dry_run cfg = false ->
  exists processed' w',
    process_tab tab processed w = Some (processed', w')
    /\ ((exists pdf_path row,
           triage tab = Selected
           /\ choose_pdf_path (files w) (title_of tab) = Some pdf_path
           /\ fst (snap_and_close_tab tab pdf_path w) = true
           /\ pdf_path ∈ files w'
           /\ row_pdf row = pdf_path
           /\ row_url row = url_of tab
           /\ row_title row = title_of tab
           /\ index_file w' = Some (rows w ++ [row])
           /\ processed' = S processed)
        \/ ((forall pdf_path,
               triage tab = Selected ->
               choose_pdf_path (files w) (title_of tab) = Some pdf_path ->
               fst (snap_and_close_tab tab pdf_path w) = false)
            /\ index_file w' = index_file w
            /\ processed' = processed)).
Proof.
  intros Hdry.
  destruct (process_tab_cases tab processed w)
    as [[Hskip E] | (Htri & p & Hp & _ & [[Hd _] | [(_ & Hok & E) | (_ & Hko & E)]])].
  - exists processed, w. split; [exact E|]. right.
    repeat split. intros p Htri. contradiction.
  - congruence.
  - eexists _, _. split; [exact E|]. left.
    pose proof (snap_and_close_tab_effects tab p w) as Hs. cbn zeta in Hs.
    destruct Hs as (Hix & _ & _ & _ & _ & Htrue & _).
    destruct (Htrue Hok) as [Hin _].
    pose proof (store_locally_effects (url_of tab) (title_of tab) p (now env)
                  (snd (snap_and_close_tab tab p w))) as Hst.
    cbn zeta in Hst.
    destruct Hst as (Hfs & _ & _ & _ & _ & row & Hrow & H1 & H2 & H3 & _).
    exists p, row. repeat split; auto.
    rewrite Hrow. unfold rows. now rewrite Hix.
  - eexists _, _. split; [exact E|]. right.
    pose proof (snap_and_close_tab_effects tab p w) as Hs. cbn zeta in Hs.
    destruct Hs as (Hix & _).
    repeat split; [|exact Hix].
    intros p' _ Hp'. rewrite Hp in Hp'. injection Hp' as <-. exact Hko.
Qed.

(** ** Dry runs *)

Lemma archive_loop_dry_run (page_tabs : list Tab) :
  dry_run cfg = true ->
  forall processed w,
  archive_loop page_tabs processed w
  = Some (processed
          + length (List.filter (fun t => is_selected (triage t)) page_tabs),
          w).
Proof.
  intros Hdry. induction page_tabs as [|tab rest IH]; intros processed w.
  - cbn. f_equal. f_equal. lia.
  - cbn [archive_loop List.filter].
    destruct (process_tab_cases tab processed w)
      as [[Hskip ->] | (Htri & p & _ & _ & [[_ ->] | [(Hd & _) | (Hd & _)]])];
      try congruence.
    + rewrite IH. destruct (triage tab); try (now elim Hskip); reflexivity.
    + rewrite IH, Htri. cbn. f_equal. f_equal. lia.
Qed.

(** C4: a dry run leaves the output tree, the index, the close requests
    and the render attempts as they were, whatever the tabs; it leaves no
    temporary copy of the history database behind; and when it gets to
    the loop the number it reports is the number of selected tabs. *)
Theorem dry_run_changes_nothing (w : World) :
  dry_run cfg = true ->
  exists processed total w',
    process_tabs w = Some ((processed, total), w')
    /\ files w' = files w
    /\ index_file w' = index_file w
    /\ close_requests w' = close_requests w
    /\ attempts w' = attempts w
    /\ (tmp_history w = false -> tmp_history w' = false)
    /\ (history_exists env = true -> copy_history env = true ->
        processed
        = length (List.filter (fun t => is_selected (triage t))
                    (List.filter is_page get_open_tabs))).
Proof.
  intros Hdry. unfold process_tabs. rewrite Hdry.
  destruct (history_exists env); [|exists 0, 0, w; now repeat split].
  destruct get_open_tabs as [|tab tabs] eqn:Htabs;
    [exists 0, 0, w; now repeat split|].
  destruct (copy_history env); [|eexists 0, _, w; now repeat split].
  rewrite (archive_loop_dry_run _ Hdry).
  eexists _, _, _. split; [reflexivity|]. now repeat split.
Qed.

(** ** Early exits *)

(** C6: when the tab-list request fails the run returns (0, 0), having
    rendered nothing, closed no tab and left the index alone. *)
Theorem unreachable_endpoint_aborts (w : World) :
  open_tabs env = None ->
  exists w',
    process_tabs w = Some ((0, 0), w')
    /\ attempts w' = attempts w
    /\ close_requests w' = close_requests w
    /\ index_file w' = index_file w.
Proof.
  intros Hnone. unfold process_tabs, get_open_tabs. rewrite Hnone. cbn.
  destruct (history_exists env); [|exists w; now repeat split].
  destruct (dry_run cfg); eexists; split; try reflexivity; now repeat split.
Qed.

(** C7: when the history database is there but cannot be copied, the run
    returns zero processed and the number of page tabs as the total,
    having rendered nothing, closed no tab and left the index alone. *)
Theorem history_copy_failure_aborts (w : World) :
  history_exists env = true ->
  copy_history env = false ->
  exists w',
    process_tabs w = Some ((0, length (List.filter is_page get_open_tabs)), w')
    /\ attempts w' = attempts w
    /\ close_requests w' = close_requests w
    /\ index_file w' = index_file w.
Proof.
  intros Hhist Hcopy. unfold process_tabs. rewrite Hhist, Hcopy.
  destruct get_open_tabs as [|tab tabs]; cbn [List.filter length];
    destruct (dry_run cfg); eexists; split; try reflexivity; now repeat split.
Qed.

(** ** Render failures *)

(** When each of the [todo] attempts the loop can make fails, the loop
    returns [False]; the attempts are those numbered from the attempts
    made so far. *)
Lemma attempt_loop_all_fail (tab : Tab) (pdf_path : str) :
  forall todo attempt w,
  (forall j, j < todo ->
     render env (length (attempts w) + j) tab pdf_path <> Rendered) ->
  fst (attempt_loop todo attempt tab pdf_path w) = false.
Proof.
  induction todo as [|todo IH]; intros attempt w Hbad; [reflexivity|].
  cbn [attempt_loop].
  pose proof (try_render_effects tab pdf_path w) as Ht. cbn zeta in Ht.
  destruct (try_render tab pdf_path w) as [res w1]. cbn [fst snd] in Ht.
  destruct Ht as (_ & _ & Hat & _ & _ & _ & Hres).
  destruct Hres as [(_ & _ & Hr) | (-> & _ & _)].
  - elim (Hbad 0); [lia|]. now rewrite Nat.add_0_r.
  - apply IH. intros j Hj.
    assert (attempts (if (attempt <? max_retries cfg - 1)%Z
                      then sleep_1s w1 else w1) = attempts w1) as ->
      by (now destruct (attempt <? max_retries cfg - 1)%Z).
    rewrite Hat. cbn [length].
    replace (S (length (attempts w)) + j) with (length (attempts w) + S j)
      by lia.
    apply Hbad. lia.
Qed.

(** C8: the render step makes at most [max_retries] attempts (3 by
    default), pausing one second after each attempt that is followed by
    another; when every attempt it makes fails it returns [False], having
    used all its attempts, without touching the index or closing the tab,
    and the loop goes on with the remaining tabs. *)
Theorem render_failure_retried_then_skipped (tab : Tab) (rest : list Tab)
    (pdf_path : str) (processed : nat) (w : World) :
  let r := snap_and_close_tab tab pdf_path w in
  (exists n,
      n <= Z.to_nat (max_retries cfg)
      /\ attempts (snd r) = replicate n (tab, pdf_path) ++ attempts w
      /\ sleeps (snd r) = sleeps w + (n - 1))
  /\ ((forall j,
         j < Z.to_nat (max_retries cfg) ->
         render env (length (attempts w) + j) tab pdf_path <> Rendered) ->
      fst r = false
      /\ index_file (snd r) = index_file w
      /\ close_requests (snd r) = close_requests w
      /\ (url_of tab <> [] ->
          attempts (snd r)
          = replicate (Z.to_nat (max_retries cfg)) (tab, pdf_path)
            ++ attempts w)
      /\ (dry_run cfg = false ->
          triage tab = Selected ->
          choose_pdf_path (files w) (title_of tab) = Some pdf_path ->
          archive_loop (tab :: rest) processed w
          = archive_loop rest processed (snd r)))
  /\ (forall root, max_retries (default_config root) = 3%Z).
Proof.
  cbn zeta.
  pose proof (snap_and_close_tab_effects tab pdf_path w) as Hs. cbn zeta in Hs.
  destruct Hs as (Hix & _ & _ & _ & Hfalse & Htrue & n & Hle & Hall & Hat & Hsl).
  split; [exists n; now repeat split|]. split; [|reflexivity].
  intros Hfail.
  assert (fst (snap_and_close_tab tab pdf_path w) = false) as Hko.
  { unfold snap_and_close_tab.
    destruct (tab_url tab) as [[|u url]|]; [reflexivity | | reflexivity].
    now apply attempt_loop_all_fail. }
  repeat split; auto.
  - intros Hurl. now rewrite Hat, (Hall Hko Hurl).
  - intros Hdry Htri Hp. cbn [archive_loop].
    destruct (process_tab_cases tab processed w)
      as [[Hskip _] | (_ & p & Hp' & _ & [[Hd _] | [(_ & Hok & _) | (_ & _ & E)]])];
      try congruence.
    rewrite E. congruence.
Qed.

(** ** Name collisions *)

Lemma choose_pdf_path_plain_or_taken (fs : gset str) (title pdf_path : str) :
  choose_pdf_path fs title = Some pdf_path ->
  pdf_path
  = join day_dir (safe_filename title (max_filename_length cfg) ++ dot_pdf)
  \/ join day_dir (safe_filename title (max_filename_length cfg) ++ dot_pdf)
     ∈ fs.
Proof.
  unfold choose_pdf_path. destruct (decide (_ ∈ fs)) as [Hin|]; [now right|].
  intros H. injection H as <-. now left.
Qed.

(** C5: in a run that is not a dry run, when a tab has been archived and
    the loop later comes to a tab whose title sanitises to the same
    string, the path chosen for the later tab differs from the path of
    the earlier one and carries a counter. *)
Theorem same_title_distinct_paths (t1 t2 : Tab) (between : list Tab)
    (processed processed2 : nat) (w1 w2 : World) (p1 p2 : str) :
  dry_run cfg = false ->
  safe_filename (title_of t1) (max_filename_length cfg)
  = safe_filename (title_of t2) (max_filename_length cfg) ->
  triage t1 = Selected ->
  choose_pdf_path (files w1) (title_of t1) = Some p1 ->
  fst (snap_and_close_tab t1 p1 w1) = true ->
  archive_loop (t1 :: between) processed w1 = Some (processed2, w2) ->
  choose_pdf_path (files w2) (title_of t2) = Some p2 ->
  p1 <> p2
  /\ exists counter,
      1 <= counter
      /\ p2 = numbered day_dir
                (safe_filename (title_of t2) (max_filename_length cfg - 10))
                counter.
Proof.
  intros Hdry Hsame Htri Hp1 Hok Hloop Hp2.
  cbn [archive_loop] in Hloop.
  destruct (process_tab t1 processed w1) as [[pa wa]|] eqn:Hstep;
    [|discriminate].
  pose proof (process_tab_grows _ _ _ _ _ Hstep) as (Hfs1 & _).
  pose proof (archive_loop_grows _ _ _ _ _ Hloop) as (Hfs2 & _).
  assert (p1 ∈ files wa) as Hin1.
  { destruct (process_tab_cases t1 processed w1)
      as [[Hskip _] | (_ & p & Hp & _ & [[Hd _] | [(_ & _ & E) | (_ & Hko & _)]])];
      try congruence.
    assert (p = p1) as -> by congruence.
    rewrite E in Hstep. injection Hstep as _ <-.
    pose proof (snap_and_close_tab_effects t1 p1 w1) as Hs. cbn zeta in Hs.
    destruct Hs as (_ & _ & _ & _ & _ & Htrue & _).
    destruct (Htrue Hok) as [Hin _].
    pose proof (store_locally_effects (url_of t1) (title_of t1) p1 (now env)
                  (snd (snap_and_close_tab t1 p1 w1))) as Hst.
    cbn zeta in Hst. destruct Hst as (Hfs & _). set_solver. }
  pose proof (choose_pdf_path_fresh _ _ _ Hp2) as Hfresh.
  split; [intros ->; apply Hfresh; set_solver|].
  apply (choose_pdf_path_numbered (files w2)); [|exact Hp2].
  rewrite <- Hsame.
  destruct (choose_pdf_path_plain_or_taken _ _ _ Hp1) as [<- | Hin];
    set_solver.
Qed.

(** ** Tabs the run passes over *)

Lemma archivable_is_page (tab : Tab) :
  archivable tab = true -> is_page tab = true.
Proof. unfold archivable. intros H. now apply andb_true_iff in H. Qed.

Lemma triage_selected_archivable (tab : Tab) :
  is_page tab = true -> triage tab = Selected -> archivable tab = true.
Proof.
  unfold triage, archivable. intros -> H.
  destruct (url_of tab) as [|c url]; [discriminate|].
  destruct (is_internal (c :: url)); [discriminate | reflexivity].
Qed.

Lemma triage_not_archivable (tab : Tab) :
  is_page tab = true -> archivable tab = false -> triage tab = SkipUrl.
Proof.
  unfold triage, archivable. intros ->.
  destruct (url_of tab) as [|c url]; [reflexivity|].
  destruct (is_internal (c :: url)); [reflexivity | discriminate].
Qed.

(** The loop does the same over the page tabs and over the archivable
    tabs. *)
Lemma archive_loop_skips (tabs : list Tab) : forall processed w,
  archive_loop (List.filter is_page tabs) processed w
  = archive_loop (List.filter archivable tabs) processed w.
Proof.
  induction tabs as [|tab rest IH]; intros processed w; [reflexivity|].
  cbn [List.filter].
  destruct (is_page tab) eqn:Hpage.
  - destruct (archivable tab) eqn:Harch.
    + cbn [archive_loop].
      destruct (process_tab tab processed w) as [[p1 w1]|]; [apply IH | reflexivity].
    + cbn [archive_loop]. unfold process_tab.
      rewrite (triage_not_archivable tab Hpage Harch). apply IH.
  - destruct (archivable tab) eqn:Harch; [|apply IH].
    apply archivable_is_page in Harch. congruence.
Qed.

Lemma filter_page_archivable (tabs : list Tab) :
  List.filter is_page (List.filter archivable tabs)
  = List.filter archivable tabs.
Proof.
  induction tabs as [|tab rest IH]; [reflexivity|]. cbn [List.filter].
  destruct (archivable tab) eqn:Harch; [|exact IH].
  cbn [List.filter]. rewrite (archivable_is_page tab Harch). now f_equal.
Qed.

(** ** The staleness filter *)

(** C1, as amended: a tab that reaches the history lookup and has a
    history entry is selected for archival if and only if its last-visit
    time is at or before the cutoff [now - days_idle]; line 314 passes
    over a tab only when its last visit is strictly after the cutoff. *)
Theorem staleness_filter_selects (tab : Tab) (url : str) (last_visit : Z) :
  tab_url tab = Some url ->
  url <> [] ->
  is_internal url = false ->
  last_visit_time env url = Some last_visit ->
  triage tab = Selected <-> (last_visit <= cutoff)%Z.
Proof.
  intros Hurl Hne Hint Hhist. unfold triage, url_of. rewrite Hurl. simpl.
  destruct url as [|c url']; [congruence|].
  rewrite Hint, Hhist.
  destruct (Z.ltb_spec cutoff last_visit); split; intros; try lia; congruence.
Qed.

(** ** More on the sanitiser *)

Lemma tidy_chars (s : str) : forall b c,
  tidy b s = true -> c ∈ s -> c = space \/ is_glyph c = true.
Proof.
  induction s as [|k s IH]; intros b c H Hin; [now apply elem_of_nil in Hin|].
  cbn [tidy] in H. apply elem_of_cons in Hin as [->|Hin].
  - destruct (N.eqb_spec k space) as [->|]; [now left|].
    apply andb_true_iff in H as [Hg _]. now right.
  - destruct (k =? space)%N.
    + destruct s as [|k' s']; [now apply elem_of_nil in Hin|].
      apply andb_true_iff in H as [_ H]. now apply (IH true).
    + apply andb_true_iff in H as [_ H]. now apply (IH false).
Qed.

Lemma tidy_last (front : str) : forall b c,
  tidy b (front ++ [c]) = true -> is_space c = false.
Proof.
  induction front as [|k front IH]; intros b c H.
  - cbn [app tidy] in H. destruct (c =? space)%N; [discriminate|].
    apply andb_true_iff in H as [Hg _]. now apply glyph_not_space.
  - cbn [app tidy] in H. destruct (k =? space)%N.
    + specialize (IH true c).
      destruct (front ++ [c]); [discriminate|].
      apply andb_true_iff in H as [_ H]. now apply IH.
    + apply andb_true_iff in H as [_ H]. now apply (IH false).
Qed.

Lemma tidy_no_double_space (front rest : str) : forall b,
  tidy b (front ++ space :: space :: rest) = false.
Proof.
  induction front as [|k front IH]; intros b.
  - cbn [app tidy]. rewrite N.eqb_refl.
    destruct rest; [apply andb_false_r|]. cbn. apply andb_false_r.
  - cbn [app tidy]. destruct (k =? space)%N.
    + specialize (IH true).
      destruct (front ++ space :: space :: rest); [reflexivity|].
      rewrite IH. apply andb_false_r.
    + rewrite IH. apply andb_false_r.
Qed.

(** X1: The shape of every name the sanitiser returns: each character is a
    space or a word character, dot or hyphen that is not white space; the
    name neither starts nor ends with white space; no two spaces are
    adjacent. *)
Theorem safe_filename_shape (text : str) (max_length : Z) :
  (forall c,
      c ∈ safe_filename text max_length ->
      c = space
      \/ (is_space c = false
         /\ is_word c || (c =? dot)%N || (c =? hyphen)%N = true))
  /\ (forall c rest,
        safe_filename text max_length = c :: rest -> is_space c = false)
  /\ (forall front c,
        safe_filename text max_length = front ++ [c] -> is_space c = false)
  /\ (forall front rest,
        safe_filename text max_length <> front ++ space :: space :: rest).
Proof.
  pose proof (safe_filename_tidy text max_length) as Ht.
  split; [|split; [|split]].
  - intros c Hin. destruct (tidy_chars _ true c Ht Hin) as [->|Hg]; [now left|].
    right. pose proof (glyph_not_space _ Hg) as Hsp.
    pose proof (glyph_kept _ Hg) as Hk. unfold is_kept in Hk.
    rewrite Hsp, orb_false_r in Hk. now split.
  - intros c rest E. rewrite E in Ht. cbn [tidy] in Ht.
    destruct (c =? space)%N; [now destruct rest|].
    apply andb_true_iff in Ht as [Hg _]. now apply glyph_not_space.
  - intros front c E. rewrite E in Ht. now apply (tidy_last front true).
  - intros front rest E. rewrite E, tidy_no_double_space in Ht. discriminate.
Qed.

(** X2: A name that already has the shape of a sanitised name, is not empty
    and fits in the maximum comes back unchanged. *)
Theorem safe_filename_keeps_tidy_names (name : str) (max_length : Z) :
  tidy true name = true ->
  name <> [] ->
  (Z.of_nat (length name) <= max_length)%Z ->
  safe_filename name max_length = name.
Proof. apply safe_filename_fixed. Qed.

(** X3: The three substitutions followed by [strip] are idempotent, for
    every text. *)
Theorem normalise_idempotent (text : str) :
  normalise (normalise text) = normalise text.
Proof. apply normalise_fixed, normalise_tidy. Qed.

Lemma before_last_space_split (s : str) :
  match before_last_space s with
  | Some p => exists word, s = p ++ space :: word /\ (space ∉ word)
  | None => space ∉ s
  end.
Proof.
  induction s as [|c s IH]; [apply not_elem_of_nil|].
  cbn [before_last_space]. destruct (before_last_space s) as [p|].
  - destruct IH as (word & -> & Hword). now exists word.
  - destruct (N.eqb_spec c space) as [->|Hne].
    + now exists s.
    + intros Hin. apply elem_of_cons in Hin as [Heq|Hin]; [now elim Hne|].
      now elim IH.
Qed.

(** X4: The name is the fallback or a prefix of the normalised text: the
    sanitiser cuts at the end and nowhere else. *)
Theorem safe_filename_prefix (text : str) (max_length : Z) :
  safe_filename text max_length = untitled
  \/ safe_filename text max_length `prefix_of` normalise text.
Proof.
  unfold safe_filename.
  destruct (max_length <? Z.of_nat (length (normalise text)))%Z.
  - assert (rsplit_head (slice_to max_length (normalise text))
              `prefix_of` normalise text) as Hpre.
    { transitivity (slice_to max_length (normalise text)).
      - unfold rsplit_head.
        pose proof (before_last_space_split
                      (slice_to max_length (normalise text))) as H.
        destruct (before_last_space (slice_to max_length (normalise text)));
          [|reflexivity].
        destruct H as (word & -> & _). now eexists.
      - unfold slice_to. destruct (0 <=? max_length)%Z; apply prefix_take. }
    destruct (rsplit_head (slice_to max_length (normalise text)));
      [now left | now right].
  - destruct (normalise text); [now left | now right].
Qed.

(** X5: A text longer, once normalised, than a maximum that is not negative
    is cut at the maximum and then back to the last space before it: the
    name is the part before that space; when the cut holds no space the
    name is the cut itself, or the fallback when the cut is empty. *)
Theorem safe_filename_cuts_at_last_space (text : str) (max_length : Z) :
  (0 <= max_length < Z.of_nat (length (normalise text)))%Z ->
  ((space ∉ take (Z.to_nat max_length) (normalise text))
   /\ safe_filename text max_length
      = match take (Z.to_nat max_length) (normalise text) with
        | [] => untitled
        | cut => cut
        end)
  \/ (exists word,
        take (Z.to_nat max_length) (normalise text)
        = safe_filename text max_length ++ space :: word
        /\ (space ∉ word)).
Proof.
  intros [Hlo Hhi]. unfold safe_filename, slice_to, rsplit_head.
  destruct (Z.ltb_spec max_length (Z.of_nat (length (normalise text))));
    [|lia].
  destruct (Z.leb_spec 0 max_length); [|lia].
  set (cut := take (Z.to_nat max_length) (normalise text)).
  pose proof (before_last_space_split cut) as Hsplit.
  pose proof (before_last_space_tidy cut true) as Htidy.
  destruct (before_last_space cut) as [p|].
  - right. destruct Hsplit as (word & Hcut & Hword).
    destruct Htidy as [_ Hne].
    { apply loose_take, tidy_loose, normalise_tidy. }
    destruct p as [|c p]; [now elim Hne|]. now exists word.
  - left. split; [exact Hsplit | now destruct cut].
Qed.

Lemma collapse_ws_spaces (s : str) :
  forallb is_space s = true -> collapse_ws true s = [].
Proof.
  induction s as [|c s IH]; [reflexivity|]. cbn [forallb collapse_ws].
  intros H. apply andb_true_iff in H as [-> H]. now apply IH.
Qed.

(** X6: A text in which nothing but white space survives the substitutions
    (no reserved character, and every character either dropped by the
    second substitution or white space) gives the fallback, whatever the
    maximum. *)
Theorem safe_filename_nothing_to_keep (text : str) (max_length : Z) :
  (forall c, c ∈ text ->
     is_reserved c = false /\ (is_kept c = false \/ is_space c = true)) ->
  safe_filename text max_length = untitled.
Proof.
  intros Hall.
  assert (normalise text = []) as Hnorm.
  { unfold normalise, strip.
    assert (forallb is_space (drop_disallowed (replace_reserved text)) = true)
      as Hsp.
    { unfold drop_disallowed, replace_reserved.
      induction text as [|c text IH]; [reflexivity|].
      destruct (Hall c) as [Hres Hc]; [apply list_elem_of_here|].
      cbn [map List.filter]. rewrite Hres.
      assert (forallb is_space
                (List.filter is_kept
                   (map (fun c0 => if is_reserved c0 then underscore else c0)
                      text)) = true) as IH'.
      { apply IH. intros c' Hin. apply Hall. now apply list_elem_of_further. }
      destruct (is_kept c) eqn:Hk; [|exact IH'].
      destruct Hc as [Hc|Hc]; [discriminate|].
      cbn [forallb]. now rewrite Hc. }
    destruct (drop_disallowed (replace_reserved text)) as [|c s];
      [reflexivity|].
    cbn [forallb] in Hsp. apply andb_true_iff in Hsp as [Hc Hs].
    cbn [collapse_ws]. rewrite Hc, (collapse_ws_spaces s Hs).
    cbn [lstrip]. now rewrite space_is_space. }
  unfold safe_filename. rewrite Hnorm. cbn [length].
  destruct (max_length <? Z.of_nat 0)%Z; [|reflexivity].
  unfold slice_to. destruct (0 <=? max_length)%Z; now rewrite take_nil.
Qed.

(** ** More on the choice of a path *)

Lemma decimal_digits (d : Decimal.uint) (c : N) :
  c ∈ codes (NilEmpty.string_of_uint d) -> (48 <= c <= 57)%N.
Proof.
  unfold codes. induction d as [|d IH|d IH|d IH|d IH|d IH|d IH|d IH|d IH|d IH|d IH];
    cbn [NilEmpty.string_of_uint String.list_ascii_of_string map];
    intros Hin; try (now apply elem_of_nil in Hin);
    apply elem_of_cons in Hin as [->|Hin]; try (now apply IH);
    cbv; split; discriminate.
Qed.

Lemma digit_not_reserved (c : N) : (48 <= c <= 57)%N -> is_reserved c = false.
Proof.
  intros [Hlo Hhi]. unfold is_reserved, reserved. cbn [existsb].
  repeat match goal with
         | |- context [(c =? ?k)%N] =>
             destruct (N.eqb_spec c k); [lia|]
         end.
  reflexivity.
Qed.

Lemma next_free_least (fs : gset str) (dir stem : str) : forall fuel c p,
  next_free fs dir stem fuel c = Some p ->
  exists k,
    c <= k /\ p = numbered dir stem k /\ (p ∉ fs)
    /\ forall j, c <= j < k -> numbered dir stem j ∈ fs.
Proof.
  induction fuel as [|fuel IH]; intros c p H; [discriminate|].
  cbn [next_free] in H.
  destruct (decide (numbered dir stem c ∈ fs)) as [Hin|Hout].
  - destruct (IH _ _ H) as (k & Hk & -> & Hfree & Hbelow).
    exists k. repeat split; [lia | exact Hfree |].
    intros j Hj. destruct (decide (j = c)) as [->|]; [exact Hin|].
    apply Hbelow. lia.
  - injection H as <-. exists c. repeat split; [lia | exact Hout |].
    intros j Hj. lia.
Qed.

(** X7: The path chosen is the plain one when it is free; otherwise it is
    the numbered path with the least counter, from 1 upwards, that is
    free. *)
Theorem choose_pdf_path_least_counter (fs : gset str) (title pdf_path : str) :
  choose_pdf_path fs title = Some pdf_path ->
  ((join day_dir (safe_filename title (max_filename_length cfg) ++ dot_pdf)
    ∉ fs)
   /\ pdf_path
      = join day_dir (safe_filename title (max_filename_length cfg) ++ dot_pdf))
  \/ ((join day_dir (safe_filename title (max_filename_length cfg) ++ dot_pdf)
       ∈ fs)
      /\ exists counter,
          1 <= counter
          /\ pdf_path
             = numbered day_dir
                 (safe_filename title (max_filename_length cfg - 10)) counter
          /\ (pdf_path ∉ fs)
          /\ forall j,
               1 <= j < counter ->
               numbered day_dir
                 (safe_filename title (max_filename_length cfg - 10)) j ∈ fs).
Proof.
  unfold choose_pdf_path. destruct (decide (_ ∈ fs)) as [Hin|Hout].
  - intros H. right. split; [exact Hin|]. now apply next_free_least in H.
  - intros H. injection H as <-. now left.
Qed.

(** X8: The path chosen is a file directly inside the day directory: its
    name ends in [.pdf], and the part before holds no reserved character,
    so neither a slash nor a backslash. *)
Theorem choose_pdf_path_inside_day_dir (fs : gset str)
    (title pdf_path : str) :
  choose_pdf_path fs title = Some pdf_path ->
  exists name,
    pdf_path = join day_dir (name ++ dot_pdf)
    /\ name <> []
    /\ forall c, c ∈ name -> is_reserved c = false.
Proof.
  unfold choose_pdf_path. destruct (decide (_ ∈ fs)) as [Hin|Hout].
  - intros H. apply next_free_found in H as (_ & k & _ & ->).
    exists (safe_filename title (max_filename_length cfg - 10)
            ++ [underscore] ++ decimal k).
    split; [unfold numbered; now rewrite <- !app_assoc|].
    split.
    + pose proof (safe_filename_nonempty title (max_filename_length cfg - 10)).
      now destruct (safe_filename title (max_filename_length cfg - 10)).
    + intros c Hc. rewrite !elem_of_app in Hc.
      destruct Hc as [Hc | [Hc | Hc]].
      * apply (tidy_no_reserved _ true c (safe_filename_tidy _ _) Hc).
      * apply list_elem_of_singleton in Hc as ->. reflexivity.
      * now apply digit_not_reserved, (decimal_digits (Nat.to_uint k)).
  - intros H. injection H as <-.
    exists (safe_filename title (max_filename_length cfg)).
    split; [reflexivity|]. split; [apply safe_filename_nonempty|].
    intros c. apply (tidy_no_reserved _ true), safe_filename_tidy.
Qed.

(** X9: Numbered paths with different counters are different paths. *)
Theorem numbered_paths_differ (dir stem : str) (a b : nat) :
  a <> b -> numbered dir stem a <> numbered dir stem b.
Proof. intros Hne H. now apply Hne, (numbered_inj dir stem). Qed.

(** ** Internal URLs *)

Lemma startswith_iff (prefix : str) : forall s,
  startswith prefix s = true <-> exists rest, s = prefix ++ rest.
Proof.
  induction prefix as [|a prefix IH]; intros s.
  - split; [intros _; now exists s | reflexivity].
  - destruct s as [|b s]; cbn [startswith].
    + split; [discriminate | intros [rest H]; discriminate].
    + rewrite andb_true_iff, N.eqb_eq, IH. split.
      * intros [-> [rest ->]]. now exists rest.
      * intros [rest H]. injection H as -> ->. split; [reflexivity | now exists rest].
Qed.

(** X10: A URL is passed over as internal exactly when it begins, with the
    same letter case, with one of the four prefixes of line 306. *)
Theorem is_internal_iff (url : str) :
  is_internal url = true
  <-> exists prefix rest,
        prefix ∈ internal_prefixes /\ url = prefix ++ rest.
Proof.
  unfold is_internal. rewrite existsb_exists. split.
  - intros (prefix & Hin & Hstart). apply startswith_iff in Hstart as [rest ->].
    exists prefix, rest. split; [now apply list_elem_of_In | reflexivity].
  - intros (prefix & rest & Hin & ->). exists prefix.
    split; [now apply list_elem_of_In|]. apply startswith_iff. now exists rest.
Qed.

(** ** More on rendering *)

Lemma attempt_loop_close (tab : Tab) (pdf_path : str) : forall todo attempt w,
  close_requests (snd (attempt_loop todo attempt tab pdf_path w))
  = match tab_id tab with
    | Some (c :: id) =>
        if fst (attempt_loop todo attempt tab pdf_path w)
           && negb (dry_run cfg)
        then (c :: id) :: close_requests w
        else close_requests w
    | _ => close_requests w
    end.
Proof.
  induction todo as [|todo IH]; intros attempt w.
  - cbn. now destruct (tab_id tab) as [[|c id]|].
  - cbn [attempt_loop]. unfold try_render.
    destruct (render env (length (attempts w)) tab pdf_path).
    + cbn [fst snd]. destruct (tab_id tab) as [[|c id]|]; try reflexivity.
      now destruct (dry_run cfg).
    + rewrite IH.
      now destruct (attempt <? max_retries cfg - 1)%Z.
    + rewrite IH.
      now destruct (attempt <? max_retries cfg - 1)%Z.
Qed.

(** X11: The render step asks the browser to close the original tab exactly
    when it returns [True], the run is not a dry run and the tab has a
    non-empty id; it sends that one request and no other. *)
Theorem tab_closed_iff_snapshot_taken (tab : Tab) (pdf_path : str)
    (w : World) :
  close_requests (snd (snap_and_close_tab tab pdf_path w))
  = match tab_id tab with
    | Some (c :: id) =>
        if fst (snap_and_close_tab tab pdf_path w) && negb (dry_run cfg)
        then (c :: id) :: close_requests w
        else close_requests w
    | _ => close_requests w
    end.
Proof.
  unfold snap_and_close_tab.
  destruct (tab_url tab) as [[|u url]|]; [| apply attempt_loop_close |];
    cbn; now destruct (tab_id tab) as [[|c id]|].
Qed.

Lemma attempt_loop_first_success (tab : Tab) (pdf_path : str) :
  forall failures todo attempt w,
  failures < todo ->
  (Z.of_nat todo + attempt = max_retries cfg)%Z ->
  (forall j, j < failures ->
     render env (length (attempts w) + j) tab pdf_path <> Rendered) ->
  render env (length (attempts w) + failures) tab pdf_path = Rendered ->
  fst (attempt_loop todo attempt tab pdf_path w) = true
  /\ attempts (snd (attempt_loop todo attempt tab pdf_path w))
     = replicate (S failures) (tab, pdf_path) ++ attempts w
  /\ sleeps (snd (attempt_loop todo attempt tab pdf_path w))
     = sleeps w + failures
  /\ pdf_path ∈ files (snd (attempt_loop todo attempt tab pdf_path w)).
Proof.
  induction failures as [|failures IH]; intros todo attempt w Hlt Hinv Hbad Hok;
    (destruct todo as [|todo]; [lia|]); cbn [attempt_loop];
    pose proof (try_render_effects tab pdf_path w) as Ht; cbn zeta in Ht;
    destruct (try_render tab pdf_path w) as [res w1]; cbn [fst snd] in Ht;
    destruct Ht as (_ & _ & Hat & Hsl & _ & _ & Hres).
  - rewrite Nat.add_0_r in Hok.
    destruct Hres as [(-> & Hin & _) | (_ & _ & Hne)]; [|contradiction].
    cbn [fst snd]. rewrite Hat, Hsl. repeat split; [lia | exact Hin].
  - destruct Hres as [(_ & _ & Hr) | (-> & _ & _)].
    { elim (Hbad 0); [lia|]. now rewrite Nat.add_0_r. }
    destruct (Z.ltb_spec attempt (max_retries cfg - 1)) as [_|]; [|lia].
    destruct (IH todo (attempt + 1)%Z (sleep_1s w1)) as (H1 & H2 & H3 & H4).
    + lia.
    + lia.
    + intros j Hj. cbn [sleep_1s attempts]. rewrite Hat. cbn [length].
      replace (S (length (attempts w)) + j) with (length (attempts w) + S j)
        by lia.
      apply Hbad. lia.
    + cbn [sleep_1s attempts]. rewrite Hat. cbn [length].
      now replace (S (length (attempts w)) + failures)
        with (length (attempts w) + S failures) by lia.
    + repeat split; [exact H1 | | | exact H4].
      * rewrite H2. cbn [sleep_1s attempts]. rewrite Hat.
        apply replicate_cons_middle.
      * rewrite H3. cbn [sleep_1s sleeps]. lia.
Qed.

(** X12: The render step stops at its first success: when the renderer fails
    [failures] times and then succeeds, within [max_retries] attempts,
    the step returns [True] after [failures + 1] attempts and [failures]
    pauses, and the snapshot exists. *)
Theorem render_stops_at_first_success (tab : Tab) (pdf_path : str)
    (w : World) (failures : nat) :
  url_of tab <> [] ->
  (Z.of_nat failures < max_retries cfg)%Z ->
  (forall j, j < failures ->
     render env (length (attempts w) + j) tab pdf_path <> Rendered) ->
  render env (length (attempts w) + failures) tab pdf_path = Rendered ->
  fst (snap_and_close_tab tab pdf_path w) = true
  /\ attempts (snd (snap_and_close_tab tab pdf_path w))
     = replicate (S failures) (tab, pdf_path) ++ attempts w
  /\ sleeps (snd (snap_and_close_tab tab pdf_path w)) = sleeps w + failures
  /\ pdf_path ∈ files (snd (snap_and_close_tab tab pdf_path w)).
Proof.
  intros Hurl Hlt Hbad Hok. unfold snap_and_close_tab.
  unfold url_of in Hurl.
  destruct (tab_url tab) as [[|u url]|]; [now elim Hurl | | now elim Hurl].
  apply attempt_loop_first_success; try assumption; lia.
Qed.

Lemma archive_loop_without_retries (page_tabs : list Tab) :
  dry_run cfg = false ->
  (max_retries cfg <= 0)%Z ->
  forall processed w,
  archive_loop page_tabs processed w = Some (processed, w).
Proof.
  intros Hdry Hmax.
  assert (forall tab p w, snap_and_close_tab tab p w = (false, w)) as Hsnap.
  { intros tab p w. unfold snap_and_close_tab.
    replace (Z.to_nat (max_retries cfg)) with 0 by lia.
    now destruct (tab_url tab) as [[|u url]|]. }
  induction page_tabs as [|tab rest IH]; intros processed w; [reflexivity|].
  cbn [archive_loop].
  destruct (process_tab_cases tab processed w)
    as [[_ ->] | (_ & p & _ & _ & [[Hd _] | [(_ & Hok & _) | (_ & _ & ->)]])];
    [apply IH | congruence | rewrite Hsnap in Hok; discriminate
    | rewrite Hsnap; apply IH].
Qed.

(** X13: With [max_retries] at zero or below, a run that is not a dry run
    archives nothing: it makes no render attempt, writes no row, closes
    no tab and reports zero processed. *)
Theorem no_retries_no_archive (w : World) :
  dry_run cfg = false ->
  (max_retries cfg <= 0)%Z ->
  exists total w',
    process_tabs w = Some ((0, total), w')
    /\ attempts w' = attempts w
    /\ index_file w' = index_file w
    /\ close_requests w' = close_requests w.
Proof.
  intros Hdry Hmax. unfold process_tabs. rewrite Hdry.
  destruct (history_exists env); [|exists 0, w; now repeat split].
  destruct get_open_tabs as [|tab tabs];
    [eexists 0, _; split; [reflexivity | now repeat split]|].
  destruct (copy_history env);
    [|eexists _, _; split; [reflexivity | now repeat split]].
  rewrite (archive_loop_without_retries _ Hdry Hmax).
  eexists _, _. split; [reflexivity | now repeat split].
Qed.

(** ** What a run adds *)

Lemma snap_and_close_tab_appends (tab : Tab) (pdf_path : str) (w : World) :
  close_requests w `suffix_of`
    close_requests (snd (snap_and_close_tab tab pdf_path w))
  /\ attempts w `suffix_of` attempts (snd (snap_and_close_tab tab pdf_path w))
  /\ sleeps w <= sleeps (snd (snap_and_close_tab tab pdf_path w)).
Proof.
  pose proof (snap_and_close_tab_effects tab pdf_path w) as Hs. cbn zeta in Hs.
  destruct Hs as (_ & _ & _ & _ & _ & _ & n & _ & _ & Hat & Hsl).
  repeat split; [| rewrite Hat; now apply suffix_app_r | lia].
  unfold snap_and_close_tab.
  destruct (tab_url tab) as [[|u url]|]; cbn [snd]; try reflexivity.
  rewrite attempt_loop_close.
  destruct (tab_id tab) as [[|c id]|]; try reflexivity.
  destruct (_ && _); [now apply suffix_cons_r | reflexivity].
Qed.

(** What a step of the loop does to the counter and to the index. *)
Lemma process_tab_rows (tab : Tab) (processed processed' : nat)
    (w w' : World) :
  process_tab tab processed w = Some (processed', w') ->
  (processed' = processed /\ index_file w' = index_file w)
  \/ (dry_run cfg = true /\ triage tab = Selected
      /\ processed' = S processed /\ w' = w)
  \/ (dry_run cfg = false /\ triage tab = Selected
      /\ processed' = S processed
      /\ exists row,
          index_file w' = Some (rows w ++ [row])
          /\ row_pdf row ∈ files w' /\ (row_pdf row ∉ files w)
          /\ logged_at row = now env
          /\ row_url row = url_of tab /\ row_title row = title_of tab).
Proof.
  intros H.
  destruct (process_tab_cases tab processed w)
    as [[_ E] | (Htri & p & _ & Hfresh & [[Hd E] | [(Hd & Hok & E) | (_ & _ & E)]])];
    rewrite E in H; injection H as <- <-.
  - now left.
  - right. left. now repeat split.
  - right. right. repeat split; try assumption.
    pose proof (snap_and_close_tab_effects tab p w) as Hs. cbn zeta in Hs.
    destruct Hs as (Hix & _ & _ & _ & _ & Htrue & _).
    destruct (Htrue Hok) as [Hin _].
    pose proof (store_locally_effects (url_of tab) (title_of tab) p (now env)
                  (snd (snap_and_close_tab tab p w))) as Hst.
    cbn zeta in Hst.
    destruct Hst as (Hfs & _ & _ & _ & _ & row & Hrow & H1 & H2 & H3 & H4).
    exists row. rewrite H1. repeat split; try assumption.
    + rewrite Hrow. unfold rows. now rewrite Hix.
    + now apply Hfs.
  - left. split; [reflexivity|].
    pose proof (snap_and_close_tab_effects tab p w) as Hs. cbn zeta in Hs.
    apply Hs.
Qed.

Lemma process_tab_appends (tab : Tab) (processed processed' : nat)
    (w w' : World) :
  process_tab tab processed w = Some (processed', w') ->
  close_requests w `suffix_of` close_requests w'
  /\ attempts w `suffix_of` attempts w'
  /\ sleeps w <= sleeps w'.
Proof.
  intros H.
  destruct (process_tab_cases tab processed w)
    as [[_ E] | (_ & p & _ & _ & [[_ E] | [(_ & _ & E) | (_ & _ & E)]])];
    rewrite E in H; injection H as <- <-; try (now repeat split).
  - pose proof (store_locally_effects (url_of tab) (title_of tab) p (now env)
                  (snd (snap_and_close_tab tab p w))) as Hst.
    cbn zeta in Hst. destruct Hst as (_ & -> & -> & -> & _).
    apply snap_and_close_tab_appends.
  - apply snap_and_close_tab_appends.
Qed.

Lemma archive_loop_appends (page_tabs : list Tab) :
  forall processed w processed' w',
  archive_loop page_tabs processed w = Some (processed', w') ->
  close_requests w `suffix_of` close_requests w'
  /\ attempts w `suffix_of` attempts w'
  /\ sleeps w <= sleeps w'.
Proof.
  induction page_tabs as [|tab rest IH]; intros processed w processed' w' H.
  - injection H as <- <-. now repeat split.
  - cbn [archive_loop] in H.
    destruct (process_tab tab processed w) as [[p1 w1]|] eqn:Hstep;
      [|discriminate].
    apply process_tab_appends in Hstep as (H1 & H2 & H3).
    apply IH in H as (H4 & H5 & H6).
    repeat split; [now transitivity (close_requests w1)
                  | now transitivity (attempts w1) | lia].
Qed.

(** The rows the loop adds: one per tab it counts (in a run that is not
    a dry run), each for a snapshot that exists and did not exist before,
    no two for the same path. *)
Lemma archive_loop_rows (page_tabs : list Tab) :
  forall processed w processed' w',
  archive_loop page_tabs processed w = Some (processed', w') ->
  exists new,
    rows w' = rows w ++ new
    /\ (dry_run cfg = false -> processed' = processed + length new)
    /\ (dry_run cfg = true -> new = [])
    /\ NoDup (row_pdf <$> new)
    /\ forall row, row ∈ new ->
         row_pdf row ∈ files w' /\ (row_pdf row ∉ files w)
         /\ logged_at row = now env
         /\ exists tab,
              tab ∈ page_tabs /\ triage tab = Selected
              /\ row_url row = url_of tab /\ row_title row = title_of tab.
Proof.
  induction page_tabs as [|tab rest IH]; intros processed w processed' w' H.
  - injection H as <- <-. exists []. rewrite app_nil_r.
    split; [reflexivity|]. split; [cbn; lia|]. split; [reflexivity|].
    split; [constructor|].
    intros row Hrow. now apply elem_of_nil in Hrow.
  - cbn [archive_loop] in H.
    destruct (process_tab tab processed w) as [[p1 w1]|] eqn:Hstep;
      [|discriminate].
    pose proof (process_tab_grows _ _ _ _ _ Hstep) as (Hfs1 & _).
    pose proof (archive_loop_grows _ _ _ _ _ H) as (Hfs2 & _).
    destruct (IH _ _ _ _ H) as (new & Hrows & Hcount & Hdry & Hnd & Hnew).
    assert (forall row, row ∈ new ->
              row_pdf row ∈ files w' /\ (row_pdf row ∉ files w)
              /\ logged_at row = now env
              /\ exists t,
                   t ∈ tab :: rest /\ triage t = Selected
                   /\ row_url row = url_of t /\ row_title row = title_of t)
      as Hnew'.
    { intros row Hrow. destruct (Hnew row Hrow) as (H1 & H2 & H3 & t & Ht & H4).
      split; [exact H1|]. split; [intros Hin; apply H2, Hfs1, Hin|].
      split; [exact H3|].
      exists t. split; [now apply list_elem_of_further | exact H4]. }
    apply process_tab_rows in Hstep
      as [[-> Hix] | [(Hd & _ & -> & ->) | (Hd & Htri & -> & row & Hix & Hin & Hout & Hrest)]].
    + exists new. unfold rows in *. rewrite <- Hix.
      split; [exact Hrows|]. split; [exact Hcount|]. split; [exact Hdry|].
      split; [exact Hnd | exact Hnew'].
    + exists new. rewrite (Hdry Hd) in *.
      split; [exact Hrows|]. split; [congruence|]. split; [reflexivity|].
      split; [constructor|].
      intros row Hrow. now apply elem_of_nil in Hrow.
    + exists (row :: new). unfold rows in Hrows at 2. rewrite Hix in Hrows.
      cbn [default from_option] in Hrows. unfold id in Hrows.
      rewrite <- app_assoc in Hrows.
      split; [exact Hrows|]. split; [|split; [congruence|split]].
      * intros Hd'. rewrite (Hcount Hd'). cbn [length]. lia.
      * cbn [fmap list_fmap]. apply NoDup_cons. split; [|exact Hnd].
        intros Hdup. apply list_elem_of_fmap in Hdup as (row' & Heq & Hrow').
        destruct (Hnew row' Hrow') as (_ & Hfresh & _).
        apply Hfresh. now rewrite <- Heq.
      * intros row' Hrow'. apply elem_of_cons in Hrow' as [->|Hrow'];
          [|now apply Hnew'].
        split; [now apply Hfs2|]. split; [exact Hout|].
        split; [apply Hrest|].
        exists tab. split; [apply list_elem_of_here|].
        split; [exact Htri | apply Hrest].
Qed.

Lemma archive_loop_count (page_tabs : list Tab) :
  forall processed w processed' w',
  archive_loop page_tabs processed w = Some (processed', w') ->
  processed <= processed'
  /\ processed'
     <= processed
        + length (List.filter (fun t => is_selected (triage t)) page_tabs).
Proof.
  induction page_tabs as [|tab rest IH]; intros processed w processed' w' H.
  - injection H as <- <-. cbn. lia.
  - cbn [archive_loop] in H. cbn [List.filter].
    destruct (process_tab tab processed w) as [[p1 w1]|] eqn:Hstep;
      [|discriminate].
    apply IH in H.
    destruct (process_tab_cases tab processed w)
      as [[Hskip E] | (Htri & p & _ & _ & [[_ E] | [(_ & _ & E) | (_ & _ & E)]])];
      rewrite E in Hstep; injection Hstep as <- <-;
      destruct (is_selected (triage tab)) eqn:Hsel; cbn [length]; try lia;
      rewrite Htri in Hsel; discriminate.
Qed.

(** ** Whole runs *)

(** The four ways through [process_tabs].  [w0] is the world once the
    day directory is there (or the world as it was, in a dry run). *)
Lemma process_tabs_cases (w : World) :
  let w0 := if dry_run cfg then w else mkdir_day_dir w in
  let page_tabs := List.filter is_page get_open_tabs in
  (history_exists env = false /\ process_tabs w = Some ((0, 0), w))
  \/ (history_exists env = true /\ get_open_tabs = []
      /\ process_tabs w = Some ((0, 0), w0))
  \/ (history_exists env = true /\ get_open_tabs <> []
      /\ copy_history env = false
      /\ process_tabs w = Some ((0, length page_tabs), w0))
  \/ (history_exists env = true /\ get_open_tabs <> []
      /\ copy_history env = true
      /\ exists processed w1,
          archive_loop page_tabs 0 (with_tmp_history true w0)
          = Some (processed, w1)
          /\ process_tabs w
             = Some ((processed, length page_tabs),
                     with_tmp_history false w1)).
Proof.
  cbn zeta. unfold process_tabs.
  destruct (history_exists env); [|now left].
  right. destruct get_open_tabs as [|tab tabs] eqn:Htabs; [now left|].
  right. destruct (copy_history env); [right | now left].
  split; [reflexivity|]. split; [discriminate|]. split; [reflexivity|].
  destruct (archive_loop_total (List.filter is_page (tab :: tabs)) 0
              (with_tmp_history true
                 (if dry_run cfg then w else mkdir_day_dir w)))
    as [[processed w1] Hloop].
  exists processed, w1. now rewrite Hloop.
Qed.

Lemma mkdir_day_dir_keeps (w : World) :
  let w0 := if dry_run cfg then w else mkdir_day_dir w in
  files w ⊆ files w0 /\ index_file w0 = index_file w
  /\ close_requests w0 = close_requests w /\ attempts w0 = attempts w
  /\ sleeps w0 = sleeps w /\ tmp_history w0 = tmp_history w.
Proof.
  cbn zeta. destruct (dry_run cfg); cbn; repeat split; try done.
  intros p Hp. apply elem_of_union_r, elem_of_union_r, Hp.
Qed.

(** X14: A run only adds: every file that existed still exists, the rows of
    the index are kept in place with new rows after them, and the close
    requests, render attempts and pauses already made stay made. *)
Theorem run_only_appends (w : World) :
  exists result w',
    process_tabs w = Some (result, w')
    /\ files w ⊆ files w'
    /\ rows w `prefix_of` rows w'
    /\ close_requests w `suffix_of` close_requests w'
    /\ attempts w `suffix_of` attempts w'
    /\ sleeps w <= sleeps w'.
Proof.
  pose proof (mkdir_day_dir_keeps w) as Hw0. cbn zeta in Hw0.
  destruct Hw0 as (Hfs & Hix & Hcl & Hat & Hsl & _).
  destruct (process_tabs_cases w)
    as [[_ E] | [(_ & _ & E) | [(_ & _ & _ & E) | (_ & _ & _ & p & w1 & Hloop & E)]]];
    rewrite E; eexists _, _; (split; [reflexivity|]).
  - now repeat split.
  - unfold rows. rewrite Hix, Hcl, Hat, Hsl. now repeat split.
  - unfold rows. rewrite Hix, Hcl, Hat, Hsl. now repeat split.
  - pose proof (archive_loop_grows _ _ _ _ _ Hloop) as (Hfs1 & _).
    pose proof (archive_loop_appends _ _ _ _ _ Hloop) as (Hcl1 & Hat1 & Hsl1).
    destruct (archive_loop_rows _ _ _ _ _ Hloop) as (new & Hrows & _).
    cbn in *. split; [|split; [|split; [|split]]].
    + intros q Hq. now apply Hfs1, Hfs.
    + unfold rows in *. cbn in Hrows. rewrite Hix in Hrows. rewrite Hrows.
      now apply prefix_app_r.
    + now rewrite <- Hcl.
    + now rewrite <- Hat.
    + lia.
Qed.

(** X15: The rows of a run that is not a dry run: as many new rows as tabs
    reported processed, each dated with the start of the run, each for a
    tab of the list that is archivable, each naming a snapshot that
    exists after the run and did not exist before it, and no two naming
    the same snapshot. *)
Theorem new_rows_of_a_run (w : World) :
  dry_run cfg = false ->
  exists processed total w' new,
    process_tabs w = Some ((processed, total), w')
    /\ rows w' = rows w ++ new
    /\ length new = processed
    /\ NoDup (row_pdf <$> new)
    /\ forall row, row ∈ new ->
         row_pdf row ∈ files w' /\ (row_pdf row ∉ files w)
         /\ logged_at row = now env
         /\ exists tab,
              tab ∈ get_open_tabs /\ archivable tab = true
              /\ row_url row = url_of tab /\ row_title row = title_of tab.
Proof.
  intros Hdry.
  pose proof (mkdir_day_dir_keeps w) as Hw0. cbn zeta in Hw0.
  destruct Hw0 as (Hfs & Hix & _).
  assert (forall w0 : World, index_file w0 = index_file w ->
            rows w0 = rows w ++ []) as Hsame.
  { intros w0 E. unfold rows. now rewrite E, app_nil_r. }
  assert (forall row : ArchiveRecord, row ∈ [] ->
            forall P : Prop, P) as Hnone.
  { intros row Hrow. now apply elem_of_nil in Hrow. }
  destruct (process_tabs_cases w)
    as [[_ E] | [(_ & _ & E) | [(_ & _ & _ & E) | (_ & _ & _ & p & w1 & Hloop & E)]]];
    rewrite E.
  - exists 0, 0, w, []. split; [reflexivity|]. split; [now apply Hsame|].
    split; [reflexivity|]. split; [constructor|].
    intros row Hrow. now apply (Hnone row).
  - eexists 0, 0, _, []. split; [reflexivity|]. split; [now apply Hsame|].
    split; [reflexivity|]. split; [constructor|].
    intros row Hrow. now apply (Hnone row).
  - eexists 0, _, _, []. split; [reflexivity|]. split; [now apply Hsame|].
    split; [reflexivity|]. split; [constructor|].
    intros row Hrow. now apply (Hnone row).
  - destruct (archive_loop_rows _ _ _ _ _ Hloop)
      as (new & Hrows & Hcount & _ & Hnd & Hnew).
    eexists p, _, _, new. split; [reflexivity|].
    split; [|split; [|split]].
    + unfold rows in *. cbn in *. now rewrite Hix in Hrows.
    + rewrite (Hcount Hdry). lia.
    + exact Hnd.
    + intros row Hrow.
      destruct (Hnew row Hrow) as (H1 & H2 & H3 & tab & Htab & Htri & H4).
      split; [exact H1|]. split; [intros Hin; apply H2; cbn; now apply Hfs|].
      split; [exact H3|].
      apply list_elem_of_In, filter_In in Htab as [Htab Hpage].
      exists tab. split; [now apply list_elem_of_In|].
      split; [now apply triage_selected_archivable | exact H4].
Qed.

(** X16: The number of tabs a run reports as processed never exceeds the
    total it reports, nor the number of page tabs the filters select:
    the count of a dry run is an upper bound on what a real run does. *)
Theorem processed_is_bounded (w : World) :
  exists processed total w',
    process_tabs w = Some ((processed, total), w')
    /\ processed <= total
    /\ processed
       <= length (List.filter (fun t => is_selected (triage t))
                    (List.filter is_page get_open_tabs)).
Proof.
  destruct (process_tabs_cases w)
    as [[_ E] | [(_ & _ & E) | [(_ & _ & _ & E) | (_ & _ & _ & p & w1 & Hloop & E)]]];
    rewrite E; eexists _, _, _; (split; [reflexivity|]); try (split; lia).
  apply archive_loop_count in Hloop as [_ Hle].
  split; [|lia].
  etransitivity; [exact Hle|]. cbn [Nat.add]. apply filter_length_le.
Qed.

Lemma triage_selected_url (tab : Tab) :
  triage tab = Selected -> url_of tab <> [].
Proof. unfold triage. now destruct (url_of tab). Qed.

Lemma archive_loop_all_rendered (page_tabs : list Tab) :
  dry_run cfg = false ->
  (1 <= max_retries cfg)%Z ->
  (forall k tab pdf_path, render env k tab pdf_path = Rendered) ->
  forall processed w processed' w',
  archive_loop page_tabs processed w = Some (processed', w') ->
  processed'
  = processed
    + length (List.filter (fun t => is_selected (triage t)) page_tabs).
Proof.
  intros Hdry Hmax Hrender.
  induction page_tabs as [|tab rest IH]; intros processed w processed' w' H.
  - injection H as <- <-. cbn. lia.
  - cbn [archive_loop] in H. cbn [List.filter].
    destruct (process_tab tab processed w) as [[p1 w1]|] eqn:Hstep;
      [|discriminate].
    apply IH in H.
    destruct (process_tab_cases tab processed w)
      as [[Hskip E] | (Htri & p & _ & _ & [[Hd _] | [(_ & _ & E) | (_ & Hko & _)]])].
    + rewrite E in Hstep. injection Hstep as <- <-.
      destruct (triage tab); try (now elim Hskip); cbn; lia.
    + congruence.
    + rewrite E in Hstep. injection Hstep as <- <-.
      rewrite Htri. cbn [is_selected length]. lia.
    + pose proof (triage_selected_url tab Htri) as Hurl.
      unfold snap_and_close_tab, url_of in Hko, Hurl.
      destruct (tab_url tab) as [[|u url]|];
        [now elim Hurl | | now elim Hurl].
      destruct (attempt_loop_first_success tab p 0
                  (Z.to_nat (max_retries cfg)) 0%Z w) as [Hok _];
        [lia | lia | intros j Hj; lia | apply Hrender |].
      congruence.
Qed.

(** X17: When the renderer never fails and at least one attempt is allowed,
    a run that is not a dry run, and that gets to the loop, archives
    every tab the filters select: it reports exactly what the dry run
    counts. *)
Theorem every_selected_tab_archived (w : World) :
  dry_run cfg = false ->
  (1 <= max_retries cfg)%Z ->
  history_exists env = true ->
  copy_history env = true ->
  (forall k tab pdf_path, render env k tab pdf_path = Rendered) ->
  exists total w',
    process_tabs w
    = Some ((length (List.filter (fun t => is_selected (triage t))
                       (List.filter is_page get_open_tabs)),
             total), w').
Proof.
  intros Hdry Hmax Hhist Hcopy Hrender.
  destruct (process_tabs_cases w)
    as [[Hh _] | [(_ & Hnil & E) | [(_ & _ & Hc & _) | (_ & _ & _ & p & w1 & Hloop & E)]]];
    try congruence.
  - rewrite E, Hnil. now eexists _, _.
  - rewrite E.
    rewrite (archive_loop_all_rendered _ Hdry Hmax Hrender _ _ _ _ Hloop).
    now eexists _, _.
Qed.

(** X18: A run that is not a dry run makes the output root and the day
    directory as soon as the history database is found, before it asks
    for the tabs, so they exist whatever happens next; when the history
    database is missing the run changes nothing at all. *)
Theorem day_dir_made_first (w : World) :
  dry_run cfg = false ->
  exists result w',
    process_tabs w = Some (result, w')
    /\ (history_exists env = true ->
        day_dir ∈ files w' /\ pdf_root cfg ∈ files w')
    /\ (history_exists env = false -> result = (0, 0) /\ w' = w).
Proof.
  intros Hdry.
  assert (day_dir ∈ files (mkdir_day_dir w)
          /\ pdf_root cfg ∈ files (mkdir_day_dir w)) as Hmade.
  { cbn. split; [apply elem_of_union_l | apply elem_of_union_r, elem_of_union_l];
      now apply elem_of_singleton. }
  destruct (process_tabs_cases w)
    as [[Hh E] | [(Hh & _ & E) | [(Hh & _ & _ & E) | (Hh & _ & _ & p & w1 & Hloop & E)]]];
    rewrite E; rewrite ?Hdry in *; eexists _, _; (split; [reflexivity|]).
  - split; [congruence | now split].
  - split; [intros _; exact Hmade | congruence].
  - split; [intros _; exact Hmade | congruence].
  - split; [|congruence].
    intros _. apply archive_loop_grows in Hloop as (Hfs & _).
    destruct Hmade as [H1 H2]. split; cbn; apply Hfs; assumption.
Qed.

End Run.

(** The pipeline does not read the tab list below [process_tabs]. *)
Lemma archive_loop_other_tabs (env : Env) (cfg : Config)
    (answer : option (list Tab)) (page_tabs : list Tab) :
  forall processed w,
  archive_loop (with_open_tabs answer env) cfg page_tabs processed w
  = archive_loop env cfg page_tabs processed w.
Proof.
  induction page_tabs as [|tab rest IH]; intros processed w; [reflexivity|].
  cbn [archive_loop].
  change (process_tab (with_open_tabs answer env) cfg tab processed w)
    with (process_tab env cfg tab processed w).
  destruct (process_tab env cfg tab processed w) as [[p1 w1]|];
    [apply IH | reflexivity].
Qed.

(** C9: a tab that is not a page, or whose URL is empty or internal to
    the browser, is never the subject of a render attempt, and the run
    reports the same number of processed tabs and leaves the same files,
    index, close requests and attempts as the run over the tab list with
    all such tabs removed. *)
Theorem ineligible_tabs_ignored (env : Env) (cfg : Config)
    (tabs : list Tab) (w : World) :
  open_tabs env = Some tabs ->
  exists processed total total' w1 w2,
    process_tabs env cfg w = Some ((processed, total), w1)
    /\ process_tabs
         (with_open_tabs (Some (List.filter archivable tabs)) env) cfg w
       = Some ((processed, total'), w2)
    /\ same_output w1 w2
    /\ forall tab pdf_path,
         archivable tab = false ->
         (tab, pdf_path) ∈ attempts w1 -> (tab, pdf_path) ∈ attempts w.
Proof.
  intros Htabs. unfold process_tabs, get_open_tabs. rewrite Htabs.
  cbn [with_open_tabs history_exists open_tabs copy_history default
       from_option].
  unfold id.
  destruct (history_exists env);
    [|exists 0, 0, 0, w, w; now repeat split].
  change (mkdir_day_dir (with_open_tabs _ env) cfg w)
    with (mkdir_day_dir env cfg w).
  set (w0 := if dry_run cfg then w else mkdir_day_dir env cfg w).
  assert (attempts w0 = attempts w) as Hat0.
  { unfold w0. now destruct (dry_run cfg). }
  destruct tabs as [|tab0 tabs0];
    [exists 0, 0, 0, w0, w0; repeat split; try reflexivity;
     intros ? ? _; now rewrite Hat0|].
  set (tabs := tab0 :: tabs0).
  assert (forall w', same_output (with_tmp_history false w') w') as Hsame
    by (intros w'; now repeat split).
  assert (forall processed w1,
            archive_loop env cfg (List.filter is_page tabs) 0
              (with_tmp_history true w0) = Some (processed, w1) ->
            forall tab pdf_path,
              archivable tab = false ->
              (tab, pdf_path) ∈ attempts (with_tmp_history false w1) ->
              (tab, pdf_path) ∈ attempts w) as Hlog.
  { intros processed w1 Hloop tab pdf_path Harch Hin.
    apply archive_loop_grows in Hloop as (_ & _ & Hat).
    destruct (Hat _ Hin) as [Hold | [Hmem Htri]]; [now rewrite <- Hat0|].
    cbn [fst] in *. apply list_elem_of_In, filter_In in Hmem as [_ Hpage].
    rewrite (triage_selected_archivable env cfg tab Hpage Htri) in Harch.
    discriminate. }
  destruct (archive_loop_total env cfg (List.filter is_page tabs) 0
              (with_tmp_history true w0)) as [[processed w1] Hloop].
  pose proof Hloop as Hloop'. rewrite archive_loop_skips in Hloop'.
  destruct (List.filter archivable tabs) as [|a rest] eqn:Harch.
  - cbn [archive_loop] in Hloop'. injection Hloop' as <- <-.
    destruct (copy_history env).
    + rewrite Hloop. eexists _, _, _, _, _. split; [reflexivity|].
      split; [reflexivity|]. split; [now repeat split|].
      exact (Hlog 0 _ Hloop).
    + eexists _, _, _, _, _. split; [reflexivity|].
      split; [reflexivity|]. split; [now repeat split|].
      intros tab pdf_path _. now rewrite Hat0.
  - rewrite archive_loop_other_tabs.
    assert (List.filter is_page (a :: rest) = a :: rest) as ->
      by (rewrite <- Harch; apply filter_page_archivable).
    destruct (copy_history env).
    + rewrite Hloop, Hloop'.
      eexists _, _, _, _, _. split; [reflexivity|].
      split; [reflexivity|]. split; [now repeat split|].
      exact (Hlog processed _ Hloop).
    + eexists _, _, _, _, _. split; [reflexivity|].
      split; [reflexivity|]. split; [now repeat split|].
      intros tab pdf_path _. now rewrite Hat0.
Qed.

(** ** The threshold *)

(** X20: Lowering the threshold never drops a tab: a tab selected with
    [days_idle] days is selected with any smaller number of days. *)
Theorem lower_threshold_keeps_selection (env : Env) (cfg : Config)
    (days : Z) (tab : Tab) :
  (days <= days_idle cfg)%Z ->
  triage env cfg tab = Selected ->
  triage env (with_days_idle days cfg) tab = Selected.
Proof.
  intros Hle. unfold triage, cutoff, microseconds_per_day.
  cbn [with_days_idle days_idle].
  destruct (url_of tab) as [|c url]; [discriminate|].
  destruct (is_internal (c :: url)); [discriminate|].
  destruct (last_visit_time env (c :: url)) as [last_visit|]; [|discriminate].
  destruct (Z.ltb_spec (now env - days_idle cfg * 86400000000) last_visit);
    [discriminate|].
  intros _.
  destruct (Z.ltb_spec (now env - days * 86400000000) last_visit);
    [lia | reflexivity].
Qed.

(** ** File names under the configuration of [main] *)

(** X21: Whatever the command line, [main] leaves the maximum at 80: the
    snapshot of a tab is named by at most 80 characters before [.pdf],
    or by a stem of at most 70 characters, an underscore and a counter
    from 1 upwards. *)
Theorem main_file_names_bounded (env : Env) (default_root : str)
    (args : Args) (fs : gset str) (title pdf_path : str) :
  choose_pdf_path env (main_config default_root args) fs title
  = Some pdf_path ->
  exists name,
    pdf_path
    = join (day_dir env (main_config default_root args)) (name ++ dot_pdf)
    /\ (length name <= 80
        \/ exists stem counter,
             name = stem ++ [underscore] ++ decimal counter
             /\ length stem <= 70 /\ 1 <= counter).
Proof.
  unfold choose_pdf_path. cbn [main_config max_filename_length default_config].
  destruct (decide (_ ∈ fs)) as [Hin|Hout].
  - intros H. apply next_free_found in H as (_ & k & Hk & ->).
    exists (safe_filename title (80 - 10) ++ [underscore] ++ decimal k).
    split; [unfold numbered; now rewrite <- !app_assoc|].
    right. exists (safe_filename title (80 - 10)), k.
    split; [reflexivity|]. split; [|exact Hk].
    destruct (safe_filename_length title (80 - 10)) as [H| ->]; [lia | lia |].
    cbn. lia.
  - intros H. injection H as <-. exists (safe_filename title 80).
    split; [reflexivity|]. left.
    destruct (safe_filename_length title 80) as [H| ->]; [lia | lia |].
    cbn. lia.
Qed.

(** ** The test script *)

(** X22: [test_pdf_generation] has nothing to write exactly when the list
    holds no page tab; otherwise it writes one file directly under
    [test_pdfs], named by at most 30 characters, none of them reserved,
    before [.pdf]. *)
Theorem test_pdf_path_named_safely (tabs : list Tab) :
  (test_pdf_path tabs = None <-> forall tab, tab ∈ tabs -> is_page tab = false)
  /\ forall pdf_path,
       test_pdf_path tabs = Some pdf_path ->
       exists name,
         pdf_path = join test_pdfs (name ++ dot_pdf)
         /\ name <> []
         /\ length name <= 30
         /\ forall c, c ∈ name -> is_reserved c = false.
Proof.
  unfold test_pdf_path. split.
  - destruct (List.filter is_page tabs) as [|tab rest] eqn:Hpages.
    + split; [|reflexivity]. intros _ tab Htab.
      destruct (is_page tab) eqn:Hpage; [|reflexivity].
      assert (In tab (List.filter is_page tabs)) as Hin
        by (apply filter_In; split; [now apply list_elem_of_In | exact Hpage]).
      rewrite Hpages in Hin. destruct Hin.
    + split; [discriminate|]. intros Hnone.
      assert (In tab (List.filter is_page tabs)) as Hin
        by (rewrite Hpages; now left).
      apply filter_In in Hin as [Hin Hpage].
      rewrite (Hnone tab) in Hpage; [discriminate | now apply list_elem_of_In].
  - intros pdf_path. destruct (List.filter is_page tabs) as [|tab rest];
      [discriminate|].
    intros H. injection H as <-.
    eexists. split; [reflexivity|]. split; [apply safe_filename_nonempty|].
    split.
    + destruct (safe_filename_length
                  (default (codes "test") (tab_title tab)) 30) as [H|H];
        [lia | lia |].
      rewrite H. cbn. lia.
    + intros c. apply (tidy_no_reserved _ true), safe_filename_tidy.
Qed.

(** ** File sizes *)




(** What the index shows for an empty file, for half a kilobyte, for a
    quotient that lies halfway between two tenths, and for one byte less
    than a megabyte. *)
Example format_file_size_samples :
  format_file_size 0 = codes "0 B"
  /\ format_file_size 512 = codes "512.0 B"
  /\ format_file_size 1280 = codes "1.2 KB"
  /\ format_file_size 1048575 = codes "1024.0 KB".
Proof. repeat split; vm_compute; reflexivity. Qed.

End Archiver.

(** ** The sample run *)

(** The sample tab visited exactly fourteen days ago is selected. *)
Lemma staleness_filter_selects_witness :
  tab_url Sample.edge_tab = Some Sample.edge_url
  /\ Sample.edge_url <> []
  /\ is_internal Sample.edge_url = false
  /\ last_visit_time Sample.env Sample.edge_url
     = Some (Sample.right_now - 14 * Sample.one_day)%Z
  /\ (triage Sample.env Sample.cfg Sample.edge_tab = Selected
      <-> (Sample.right_now - 14 * Sample.one_day
           <= cutoff Sample.env Sample.cfg)%Z).
Proof.
  split; [reflexivity|]. split; [discriminate|].
  split; [reflexivity|]. split; [reflexivity|].
  apply (staleness_filter_selects Sample.env Sample.cfg Sample.edge_tab
           Sample.edge_url);
    [reflexivity | discriminate | reflexivity | reflexivity].
Defined.

(** C1, as stated, fails on a tab whose last visit is exactly at the
    cutoff: it has a history entry, its last-visit time is not strictly
    before the cutoff, and it is selected all the same. *)
Lemma staleness_strict_counterexample :
  last_visit_time Sample.env Sample.edge_url
    = Some (cutoff Sample.env Sample.cfg)
  /\ ~ (cutoff Sample.env Sample.cfg < cutoff Sample.env Sample.cfg)%Z
  /\ triage Sample.env Sample.cfg Sample.edge_tab = Selected.
Proof.
  split; [reflexivity|]. split; [lia|]. reflexivity.
Qed.

(** The sanitiser on the title of the old sample tab, with the
    configured maximum of 80. *)
Lemma safe_filename_sanitises_witness :
  (8 <= 80)%Z
  /\ (0 <= 80)%Z
  /\ (forall c,
        c ∈ safe_filename Sample.ascii_only (title_of Sample.old_tab) 80 ->
        is_reserved c = false)
  /\ safe_filename Sample.ascii_only (title_of Sample.old_tab) 80 <> []
  /\ (Z.of_nat
        (length (safe_filename Sample.ascii_only (title_of Sample.old_tab) 80))
      <= 80)%Z.
Proof.
  split; [lia|]. split; [lia|].
  destruct (safe_filename_sanitises Sample.ascii_only
              (title_of Sample.old_tab) 80) as (Hres & Hne & Hlen & _).
  split; [exact Hres|]. split; [exact Hne|]. apply Hlen. lia.
Defined.

(** C3, as stated, fails for the empty title and a maximum of 5: the
    name is the fallback, eight characters long. *)
Lemma safe_filename_length_counterexample :
  safe_filename Sample.ascii_only [] 5 = untitled
  /\ ~ (Z.of_nat (length (safe_filename Sample.ascii_only [] 5)) <= 5)%Z.
Proof.
  split; [reflexivity|].
  change (safe_filename Sample.ascii_only [] 5) with untitled.
  cbn [untitled length]. lia.
Qed.

Lemma safe_filename_idempotent_witness :
  (80 = 0 \/ 8 <= 80)%Z
  /\ safe_filename Sample.ascii_only
       (safe_filename Sample.ascii_only (title_of Sample.old_tab) 80) 80
     = safe_filename Sample.ascii_only (title_of Sample.old_tab) 80.
Proof.
  split; [lia|].
  apply (safe_filename_idempotent Sample.ascii_only
           (title_of Sample.old_tab) 80).
  lia.
Defined.

(** C10, as stated, fails for the empty title and a maximum of 5: the
    first call returns the fallback, the second cuts it to five
    characters. *)
Lemma safe_filename_idempotent_counterexample :
  safe_filename Sample.ascii_only [] 5 = codes "untitled"
  /\ safe_filename Sample.ascii_only (safe_filename Sample.ascii_only [] 5) 5
     = codes "untit"
  /\ safe_filename Sample.ascii_only (safe_filename Sample.ascii_only [] 5) 5
     <> safe_filename Sample.ascii_only [] 5.
Proof.
  split; [reflexivity|]. split; [reflexivity|]. discriminate.
Qed.

(** The step for the old sample tab, from an empty output tree. *)
Lemma index_row_iff_render_succeeds_witness :
  dry_run Sample.cfg = false
  /\ exists processed' w',
      process_tab Sample.ascii_only Sample.env Sample.cfg Sample.old_tab 0
        Sample.empty_world = Some (processed', w')
      /\ index_file w' <> index_file Sample.empty_world.
Proof.
  split; [reflexivity|].
  destruct (index_row_iff_render_succeeds Sample.ascii_only Sample.env
              Sample.cfg Sample.old_tab 0 Sample.empty_world eq_refl)
    as (processed' & w' & Hstep & Hcases).
  exists processed', w'. split; [exact Hstep|].
  destruct Hcases as [(p & row & _ & _ & _ & _ & _ & _ & _ & Hix & _)
                     | (Hfail & _)].
  - rewrite Hix. discriminate.
  - exfalso.
    specialize (Hfail
      (codes "/srv/TabColdStore/2025-08-17/Old_ page_.pdf")
      eq_refl eq_refl).
    vm_compute in Hfail. discriminate.
Defined.

(** The sample run as a dry run. *)
Lemma dry_run_changes_nothing_witness :
  dry_run (Sample.cfg_with true) = true
  /\ exists processed total w',
      process_tabs Sample.ascii_only Sample.env (Sample.cfg_with true)
        Sample.empty_world = Some ((processed, total), w')
      /\ files w' = files Sample.empty_world
      /\ index_file w' = index_file Sample.empty_world
      /\ close_requests w' = close_requests Sample.empty_world
      /\ attempts w' = attempts Sample.empty_world
      /\ processed = 2.
Proof.
  split; [reflexivity|].
  destruct (dry_run_changes_nothing Sample.ascii_only Sample.env
              (Sample.cfg_with true) Sample.empty_world eq_refl)
    as (processed & total & w' & Hrun & Hfs & Hix & Hcl & Hat & _ & Hcount).
  exists processed, total, w'. repeat split; try assumption.
  rewrite (Hcount eq_refl eq_refl). reflexivity.
Defined.

(** The old sample tab is archived first; the tab visited fourteen days
    ago, whose title sanitises to the same name, comes third. *)
Lemma same_title_distinct_paths_witness :
  codes "/srv/TabColdStore/2025-08-17/Old_ page_.pdf"
  <> codes "/srv/TabColdStore/2025-08-17/Old_ page__1.pdf"
  /\ exists counter,
      1 <= counter
      /\ codes "/srv/TabColdStore/2025-08-17/Old_ page__1.pdf"
         = numbered (day_dir Sample.env Sample.cfg)
             (safe_filename Sample.ascii_only (title_of Sample.edge_tab)
                (max_filename_length Sample.cfg - 10))
             counter.
Proof.
  apply (same_title_distinct_paths Sample.ascii_only Sample.env Sample.cfg
           Sample.old_tab Sample.edge_tab [Sample.fresh_tab] 0
           (fst (default (0, Sample.empty_world)
                   (archive_loop Sample.ascii_only Sample.env Sample.cfg
                      [Sample.old_tab; Sample.fresh_tab] 0
                      Sample.empty_world)))
           Sample.empty_world
           (snd (default (0, Sample.empty_world)
                   (archive_loop Sample.ascii_only Sample.env Sample.cfg
                      [Sample.old_tab; Sample.fresh_tab] 0
                      Sample.empty_world))));
    vm_compute; reflexivity.
Defined.

(** The sample run when the debugging endpoint does not answer. *)
Lemma unreachable_endpoint_aborts_witness :
  open_tabs (Sample.env_with None true (Sample.always Rendered)) = None
  /\ exists w',
      process_tabs Sample.ascii_only
        (Sample.env_with None true (Sample.always Rendered)) Sample.cfg
        Sample.empty_world = Some ((0, 0), w')
      /\ attempts w' = attempts Sample.empty_world
      /\ close_requests w' = close_requests Sample.empty_world
      /\ index_file w' = index_file Sample.empty_world.
Proof.
  split; [reflexivity|].
  apply (unreachable_endpoint_aborts Sample.ascii_only
           (Sample.env_with None true (Sample.always Rendered)) Sample.cfg
           Sample.empty_world).
  reflexivity.
Defined.

(** The sample run when the history database cannot be copied: four of
    the five tabs are pages. *)
Lemma history_copy_failure_aborts_witness :
  history_exists
    (Sample.env_with (Some Sample.tabs) false (Sample.always Rendered)) = true
  /\ copy_history
       (Sample.env_with (Some Sample.tabs) false (Sample.always Rendered))
     = false
  /\ exists w',
      process_tabs Sample.ascii_only
        (Sample.env_with (Some Sample.tabs) false (Sample.always Rendered))
        Sample.cfg Sample.empty_world = Some ((0, 4), w')
      /\ attempts w' = attempts Sample.empty_world
      /\ close_requests w' = close_requests Sample.empty_world
      /\ index_file w' = index_file Sample.empty_world.
Proof.
  split; [reflexivity|]. split; [reflexivity|].
  apply (history_copy_failure_aborts Sample.ascii_only
           (Sample.env_with (Some Sample.tabs) false (Sample.always Rendered))
           Sample.cfg Sample.empty_world);
    reflexivity.
Defined.

(** The old sample tab with a renderer that produces no PDF at its first
    three attempts and would produce one at the fourth: three attempts,
    two pauses, no row, and the loop goes on. *)
Lemma render_failure_retried_then_skipped_witness :
  (forall j,
      j < Z.to_nat (max_retries Sample.cfg) ->
      render
        (Sample.env_with (Some Sample.tabs) true
           (fun k _ _ => if k <? 3 then NoPdf else Rendered))
        (length (attempts Sample.empty_world) + j) Sample.old_tab
        (codes "/srv/TabColdStore/2025-08-17/Old_ page_.pdf")
      <> Rendered)
  /\ let r :=
       snap_and_close_tab
         (Sample.env_with (Some Sample.tabs) true
            (fun k _ _ => if k <? 3 then NoPdf else Rendered))
         Sample.cfg Sample.old_tab
         (codes "/srv/TabColdStore/2025-08-17/Old_ page_.pdf")
         Sample.empty_world in
     fst r = false
     /\ index_file (snd r) = None
     /\ length (attempts (snd r)) = 3
     /\ sleeps (snd r) = 2
     /\ archive_loop Sample.ascii_only
          (Sample.env_with (Some Sample.tabs) true
             (fun k _ _ => if k <? 3 then NoPdf else Rendered))
          Sample.cfg [Sample.old_tab; Sample.fresh_tab] 0 Sample.empty_world
        = archive_loop Sample.ascii_only
            (Sample.env_with (Some Sample.tabs) true
               (fun k _ _ => if k <? 3 then NoPdf else Rendered))
            Sample.cfg [Sample.fresh_tab] 0 (snd r).
Proof.
  assert (forall j,
            j < Z.to_nat (max_retries Sample.cfg) ->
            render
              (Sample.env_with (Some Sample.tabs) true
                 (fun k _ _ => if k <? 3 then NoPdf else Rendered))
              (length (attempts Sample.empty_world) + j) Sample.old_tab
              (codes "/srv/TabColdStore/2025-08-17/Old_ page_.pdf")
            <> Rendered) as Hbad.
  { intros j Hj. cbn in Hj. cbn [Sample.env_with render Sample.empty_world
                                  attempts length Nat.add].
    destruct (Nat.ltb_spec j 3); [discriminate | lia]. }
  split; [exact Hbad|]. cbn zeta.
  destruct (render_failure_retried_then_skipped Sample.ascii_only
              (Sample.env_with (Some Sample.tabs) true
                 (fun k _ _ => if k <? 3 then NoPdf else Rendered))
              Sample.cfg Sample.old_tab [Sample.fresh_tab]
              (codes "/srv/TabColdStore/2025-08-17/Old_ page_.pdf")
              0 Sample.empty_world) as (_ & Hfail & _).
  destruct (Hfail Hbad) as (Hko & Hix & _ & _ & Hnext).
  split; [exact Hko|]. split; [exact Hix|].
  split; [reflexivity|]. split; [reflexivity|].
  apply Hnext; reflexivity.
Defined.

(** The sample run passes over the new-tab page and the service worker. *)
Lemma ineligible_tabs_ignored_witness :
  open_tabs Sample.env = Some Sample.tabs
  /\ exists processed total total' w1 w2,
      process_tabs Sample.ascii_only Sample.env Sample.cfg Sample.empty_world
      = Some ((processed, total), w1)
      /\ process_tabs Sample.ascii_only
           (with_open_tabs (Some (List.filter archivable Sample.tabs))
              Sample.env)
           Sample.cfg Sample.empty_world
         = Some ((processed, total'), w2)
      /\ same_output w1 w2
      /\ forall tab pdf_path,
           archivable tab = false ->
           (tab, pdf_path) ∈ attempts w1 ->
           (tab, pdf_path) ∈ attempts Sample.empty_world.
Proof.
  split; [reflexivity|].
  apply (ineligible_tabs_ignored Sample.ascii_only Sample.env Sample.cfg
           Sample.tabs Sample.empty_world).
  reflexivity.
Defined.

(** The end-to-end example of the specification: of a tab idle for twenty
    days and a tab idle for one day, with a threshold of fourteen days,
    exactly one is archived and the index has one row. *)
Example end_to_end_two_tabs :
  exists w',
    process_tabs Sample.ascii_only
      (Sample.env_with (Some [Sample.old_tab; Sample.fresh_tab]) true
         (Sample.always Rendered))
      Sample.cfg Sample.empty_world = Some ((1, 2), w')
    /\ length (rows w') = 1
    /\ (row_url <$> rows w') = [Sample.old_url].
Proof.
  eexists. split; [vm_compute; reflexivity|]. split; reflexivity.
Qed.

(** ** More of the sample run *)

Lemma safe_filename_keeps_tidy_names_witness :
  tidy Sample.ascii_only true (codes "Old_ page_") = true
  /\ codes "Old_ page_" <> []
  /\ (Z.of_nat (length (codes "Old_ page_")) <= 80)%Z
  /\ safe_filename Sample.ascii_only (codes "Old_ page_") 80
     = codes "Old_ page_".
Proof.
  split; [reflexivity|]. split; [discriminate|]. split; [cbn; lia|].
  apply (safe_filename_keeps_tidy_names Sample.ascii_only
           (codes "Old_ page_") 80);
    [reflexivity | discriminate | cbn; lia].
Defined.

(** The title of the old sample tab under a maximum of 5: the cut
    [Old_ ] ends in a space and the name is [Old_]. *)
Lemma safe_filename_cuts_at_last_space_witness :
  (0 <= 5 < Z.of_nat
             (length (normalise Sample.ascii_only (title_of Sample.old_tab))))%Z
  /\ safe_filename Sample.ascii_only (title_of Sample.old_tab) 5
     = codes "Old_"
  /\ (((space ∉ take (Z.to_nat 5)
                  (normalise Sample.ascii_only (title_of Sample.old_tab)))
       /\ safe_filename Sample.ascii_only (title_of Sample.old_tab) 5
          = match take (Z.to_nat 5)
                    (normalise Sample.ascii_only (title_of Sample.old_tab))
            with
            | [] => untitled
            | cut => cut
            end)
      \/ (exists word,
            take (Z.to_nat 5)
              (normalise Sample.ascii_only (title_of Sample.old_tab))
            = safe_filename Sample.ascii_only (title_of Sample.old_tab) 5
              ++ space :: word
            /\ (space ∉ word))).
Proof.
  assert (length (normalise Sample.ascii_only (title_of Sample.old_tab)) = 10)
    as Hlen by reflexivity.
  split; [rewrite Hlen; lia|]. split; [reflexivity|].
  apply (safe_filename_cuts_at_last_space Sample.ascii_only
           (title_of Sample.old_tab) 5).
  rewrite Hlen. lia.
Defined.

(** A title of brackets, an exclamation mark and blanks. *)
Lemma safe_filename_nothing_to_keep_witness :
  (forall c, c ∈ codes " (!)  " ->
     is_reserved c = false
     /\ (is_kept Sample.ascii_only c = false \/ is_space c = true))
  /\ safe_filename Sample.ascii_only (codes " (!)  ") 80 = untitled.
Proof.
  assert (forall c, c ∈ codes " (!)  " ->
            is_reserved c = false
            /\ (is_kept Sample.ascii_only c = false \/ is_space c = true))
    as Hall.
  { intros c Hc. cbv [codes String.list_ascii_of_string map N_of_ascii
                        N_of_digits N.add N.mul] in Hc.
    repeat (apply elem_of_cons in Hc as [->|Hc];
            [split; [reflexivity | first [now left | now right]]|]).
    now apply elem_of_nil in Hc. }
  split; [exact Hall|].
  apply (safe_filename_nothing_to_keep Sample.ascii_only (codes " (!)  ") 80
           Hall).
Defined.

(** The plain path of the old sample tab is taken, and so is the path
    numbered 1: the path chosen is numbered 2. *)
Lemma choose_pdf_path_least_counter_witness :
  choose_pdf_path Sample.ascii_only Sample.env Sample.cfg
    {[ codes "/srv/TabColdStore/2025-08-17/Old_ page_.pdf";
       codes "/srv/TabColdStore/2025-08-17/Old_ page__1.pdf" ]}
    (title_of Sample.old_tab)
  = Some (codes "/srv/TabColdStore/2025-08-17/Old_ page__2.pdf")
  /\ exists counter,
      1 <= counter
      /\ codes "/srv/TabColdStore/2025-08-17/Old_ page__2.pdf"
         = numbered (day_dir Sample.env Sample.cfg)
             (safe_filename Sample.ascii_only (title_of Sample.old_tab)
                (max_filename_length Sample.cfg - 10))
             counter.
Proof.
  assert (choose_pdf_path Sample.ascii_only Sample.env Sample.cfg
            {[ codes "/srv/TabColdStore/2025-08-17/Old_ page_.pdf";
               codes "/srv/TabColdStore/2025-08-17/Old_ page__1.pdf" ]}
            (title_of Sample.old_tab)
          = Some (codes "/srv/TabColdStore/2025-08-17/Old_ page__2.pdf"))
    as Hchosen by (vm_compute; reflexivity).
  split; [exact Hchosen|].
  destruct (choose_pdf_path_least_counter Sample.ascii_only Sample.env
              Sample.cfg _ _ _ Hchosen)
    as [[_ Hplain] | (_ & counter & Hpos & Hpath & _)].
  - vm_compute in Hplain. discriminate.
  - exists counter. split; [exact Hpos | exact Hpath].
Defined.

Lemma choose_pdf_path_inside_day_dir_witness :
  choose_pdf_path Sample.ascii_only Sample.env Sample.cfg ∅
    (title_of Sample.old_tab)
  = Some (codes "/srv/TabColdStore/2025-08-17/Old_ page_.pdf")
  /\ exists name,
      codes "/srv/TabColdStore/2025-08-17/Old_ page_.pdf"
      = join (day_dir Sample.env Sample.cfg) (name ++ dot_pdf)
      /\ name <> []
      /\ forall c, c ∈ name -> is_reserved c = false.
Proof.
  assert (choose_pdf_path Sample.ascii_only Sample.env Sample.cfg ∅
            (title_of Sample.old_tab)
          = Some (codes "/srv/TabColdStore/2025-08-17/Old_ page_.pdf"))
    as Hchosen by (vm_compute; reflexivity).
  split; [exact Hchosen|].
  exact (choose_pdf_path_inside_day_dir Sample.ascii_only Sample.env
           Sample.cfg _ _ _ Hchosen).
Defined.

Lemma numbered_paths_differ_witness :
  1 <> 2
  /\ numbered (codes "/srv") (codes "Old") 1
     <> numbered (codes "/srv") (codes "Old") 2.
Proof.
  split; [lia|].
  apply (numbered_paths_differ (codes "/srv") (codes "Old") 1 2). lia.
Defined.

(** The old sample tab with a renderer that fails once: two attempts,
    one pause. *)
Lemma render_stops_at_first_success_witness :
  url_of Sample.old_tab <> []
  /\ (Z.of_nat 1 < max_retries Sample.cfg)%Z
  /\ (let r :=
        snap_and_close_tab
          (Sample.env_with (Some Sample.tabs) true
             (fun k _ _ => if k =? 0 then NoPdf else Rendered))
          Sample.cfg Sample.old_tab
          (codes "/srv/TabColdStore/2025-08-17/Old_ page_.pdf")
          Sample.empty_world in
      fst r = true /\ length (attempts (snd r)) = 2 /\ sleeps (snd r) = 1).
Proof.
  split; [discriminate|]. split; [cbn; lia|]. cbn zeta.
  destruct (render_stops_at_first_success
              (Sample.env_with (Some Sample.tabs) true
                 (fun k _ _ => if k =? 0 then NoPdf else Rendered))
              Sample.cfg Sample.old_tab
              (codes "/srv/TabColdStore/2025-08-17/Old_ page_.pdf")
              Sample.empty_world 1) as (Hok & Hat & Hsl & _).
  - discriminate.
  - cbn. lia.
  - intros j Hj. assert (j = 0) as -> by lia. discriminate.
  - reflexivity.
  - split; [exact Hok|]. split; [now rewrite Hat | exact Hsl].
Defined.

(** The sample run with no attempt allowed. *)
Lemma no_retries_no_archive_witness :
  dry_run {| days_idle := 14; pdf_root := Sample.root;
             max_filename_length := 80; max_retries := 0;
             dry_run := false |} = false
  /\ (0 <= 0)%Z
  /\ exists total w',
      process_tabs Sample.ascii_only Sample.env
        {| days_idle := 14; pdf_root := Sample.root;
           max_filename_length := 80; max_retries := 0; dry_run := false |}
        Sample.empty_world = Some ((0, total), w')
      /\ attempts w' = attempts Sample.empty_world
      /\ index_file w' = index_file Sample.empty_world
      /\ close_requests w' = close_requests Sample.empty_world.
Proof.
  split; [reflexivity|]. split; [lia|].
  apply (no_retries_no_archive Sample.ascii_only Sample.env
           {| days_idle := 14; pdf_root := Sample.root;
              max_filename_length := 80; max_retries := 0;
              dry_run := false |} Sample.empty_world);
    [reflexivity | cbn; lia].
Defined.

Lemma new_rows_of_a_run_witness :
  dry_run Sample.cfg = false
  /\ exists processed total w' new,
      process_tabs Sample.ascii_only Sample.env Sample.cfg Sample.empty_world
      = Some ((processed, total), w')
      /\ rows w' = rows Sample.empty_world ++ new
      /\ length new = processed
      /\ NoDup (row_pdf <$> new).
Proof.
  split; [reflexivity|].
  destruct (new_rows_of_a_run Sample.ascii_only Sample.env Sample.cfg
              Sample.empty_world eq_refl)
    as (processed & total & w' & new & H1 & H2 & H3 & H4 & _).
  exists processed, total, w', new.
  split; [exact H1|]. split; [exact H2|]. split; [exact H3 | exact H4].
Defined.

(** The sample run with a renderer that never fails archives the two
    selected tabs. *)
Lemma every_selected_tab_archived_witness :
  dry_run Sample.cfg = false
  /\ (1 <= max_retries Sample.cfg)%Z
  /\ history_exists Sample.env = true
  /\ copy_history Sample.env = true
  /\ (forall k tab pdf_path, render Sample.env k tab pdf_path = Rendered)
  /\ exists total w',
      process_tabs Sample.ascii_only Sample.env Sample.cfg Sample.empty_world
      = Some ((2, total), w').
Proof.
  split; [reflexivity|]. split; [cbn; lia|]. split; [reflexivity|].
  split; [reflexivity|]. split; [reflexivity|].
  apply (every_selected_tab_archived Sample.ascii_only Sample.env Sample.cfg
           Sample.empty_world);
    [reflexivity | cbn; lia | reflexivity | reflexivity | reflexivity].
Defined.

(** The sample run when the endpoint does not answer: the day directory
    is there all the same. *)
Lemma day_dir_made_first_witness :
  dry_run Sample.cfg = false
  /\ history_exists (Sample.env_with None true (Sample.always Rendered))
     = true
  /\ exists result w',
      process_tabs Sample.ascii_only
        (Sample.env_with None true (Sample.always Rendered)) Sample.cfg
        Sample.empty_world = Some (result, w')
      /\ day_dir (Sample.env_with None true (Sample.always Rendered))
           Sample.cfg ∈ files w'.
Proof.
  split; [reflexivity|]. split; [reflexivity|].
  destruct (day_dir_made_first Sample.ascii_only
              (Sample.env_with None true (Sample.always Rendered)) Sample.cfg
              Sample.empty_world eq_refl)
    as (result & w' & Hrun & Hdir & _).
  exists result, w'. split; [exact Hrun|]. now apply Hdir.
Defined.

(** The sample tab visited fourteen days ago stays selected with a
    threshold of seven days. *)
Lemma lower_threshold_keeps_selection_witness :
  (7 <= days_idle Sample.cfg)%Z
  /\ triage Sample.env Sample.cfg Sample.edge_tab = Selected
  /\ triage Sample.env (with_days_idle 7 Sample.cfg) Sample.edge_tab
     = Selected.
Proof.
  split; [cbn; lia|]. split; [reflexivity|].
  apply (lower_threshold_keeps_selection Sample.env Sample.cfg 7
           Sample.edge_tab);
    [cbn; lia | reflexivity].
Defined.

Lemma main_file_names_bounded_witness :
  choose_pdf_path Sample.ascii_only Sample.env
    (main_config Sample.root
       {| arg_days := 14; arg_output := None; arg_dry_run := false |})
    ∅ (title_of Sample.old_tab)
  = Some (codes "/srv/TabColdStore/2025-08-17/Old_ page_.pdf")
  /\ exists name,
      codes "/srv/TabColdStore/2025-08-17/Old_ page_.pdf"
      = join (day_dir Sample.env
                (main_config Sample.root
                   {| arg_days := 14; arg_output := None;
                      arg_dry_run := false |}))
          (name ++ dot_pdf)
      /\ (length name <= 80
          \/ exists stem counter,
               name = stem ++ [underscore] ++ decimal counter
               /\ length stem <= 70 /\ 1 <= counter).
Proof.
  assert (choose_pdf_path Sample.ascii_only Sample.env
            (main_config Sample.root
               {| arg_days := 14; arg_output := None; arg_dry_run := false |})
            ∅ (title_of Sample.old_tab)
          = Some (codes "/srv/TabColdStore/2025-08-17/Old_ page_.pdf"))
    as Hchosen by (vm_compute; reflexivity).
  split; [exact Hchosen|].
  exact (main_file_names_bounded Sample.ascii_only Sample.env Sample.root
           _ _ _ _ Hchosen).
Defined.

